(** * TinyJsonRpcServer: a shallow embedding and its specification

    The development follows [src/TinyJsonRpcServer.ts] function by function;
    the constructor of [JsonRpcRequestException] is also given as the
    JavaScript build of the library has it.

    - JavaScript values are an inductive type.  Numbers are IEEE 754 doubles
      ([spec_float]); objects are association lists of their own properties
      in insertion order; the method table is a finite map ([gmap]) from
      names to handlers, looked up the way a plain object is.
    - A conversion of the language can throw, and so can every function of
      the library that converts: [isNumeric], [createErrorObject],
      [createErrorResponse], [_validateRequest] and the constructor of the
      exception return a completion, a value or a thrown exception.
    - Code with effects runs in a small state-and-exception monad.  The
      state holds the world that the handlers read and write, and a trace of
      the calls that the server made to them.
    - A promise is represented by the state it eventually reaches: fulfilled,
      rejected, or pending for ever.  Resolving with a native promise or with
      a thenable adopts its state.  The reactions of a promise chain are run
      in the order in which the event loop runs them; in a batch, the first
      reaction of each request runs in the order of the array, so the
      handlers are called in that order.
    - A handler is a function of its arguments and of the world; what it
      returns may be a promise, which then carries its eventual state.  What
      a handler does to the world, it does during the call: effects that a
      handler defers to a later turn of the event loop are not represented.
    - [console.error] writes to a stream that nobody reads and is left out.

    The file is organised as follows: the values and the effects; the host,
    as a class; the library; the vocabulary of its specification; a sample
    host to run the model on; and then the lemmas, the theorems and closed
    instances of them, among which the tests of the repository. *)

From Stdlib Require Import ZArith String List Bool Lia.
From Stdlib Require Import SpecFloat.
From stdpp Require Import base option gmap strings.

Import ListNotations.
Local Open Scope string_scope.
Set Warnings "-register-all".

(** ** JavaScript values *)

Module JS.

(** A JavaScript number is a binary64 float. *)
Abbreviation number := spec_float.

Definition num_of_Z (z : Z) : number :=
  match z with
  | Z0 => S754_zero false
  | Zpos p => S754_finite false p 0
  | Zneg p => S754_finite true p 0
  end.

(** The fragment of the language the server can observe: primitives, plain
    objects (own properties, in insertion order), arrays without holes and
    without properties besides their elements, the wrapper objects
    [new Boolean(b)], [new Number(n)] and [new String(s)], callables (opaque,
    without properties of their own), native promises, [Error] instances
    (with their [name] and [message]) and the instances of
    [JsonRpcRequestException] as its constructor leaves them.  A plain object
    may hold anything under any name, [toString], [valueOf] and [then]
    included.  Symbols, BigInts, proxies and accessors are outside the
    fragment. *)
Inductive value : Type :=
| VUndefined
| VNull
| VBool (b : bool)
| VNumber (n : number)
| VString (s : string)
| VObject (props : list (string * value))
| VArray (elems : list value)
| VBooleanObject (b : bool)
| VNumberObject (n : number)
| VStringObject (s : string)
| VFunction (name : string)
| VPromise (p : promise)
| VError (name message : string)
| VJsonRpcRequestException (errorObj : value)
with promise : Type :=
| Fulfilled (v : value)
| Rejected (reason : value)
| Pending.

(** [typeof v] *)
Definition typeof (v : value) : string :=
  match v with
  | VUndefined => "undefined"
  | VBool _ => "boolean"
  | VNumber _ => "number"
  | VString _ => "string"
  | VFunction _ => "function"
  | _ => "object"
  end.

(** [v === Object(v)]: [Object(v)] is [v] itself exactly when [v] is an
    object; for a primitive it is a fresh object, never identical to [v]. *)
Definition is_object (v : value) : bool :=
  match v with
  | VUndefined | VNull | VBool _ | VNumber _ | VString _ => false
  | _ => true
  end.

(** ToBoolean, the test of [if (v)], [!v] and [v ? a : b]. *)
Definition truthy (v : value) : bool :=
  match v with
  | VUndefined | VNull => false
  | VBool b => b
  | VNumber (S754_zero _) | VNumber S754_nan => false
  | VNumber _ => true
  | VString s => negb (String.eqb s EmptyString)
  | _ => true
  end.

Definition Array_isArray (v : value) : bool :=
  match v with VArray _ => true | _ => false end.

(** [function isString(v)]: [typeof v === 'string' || v instanceof String] *)
Definition isString (v : value) : bool :=
  match v with
  | VString _ => true
  | VStringObject _ => true
  | _ => false
  end.

(** The characters of a string or of a [String] object. *)
Definition string_data (v : value) : option string :=
  match v with
  | VString s | VStringObject s => Some s
  | _ => None
  end.

Definition is_nan (n : number) : bool :=
  match n with S754_nan => true | _ => false end.

Definition is_finite (n : number) : bool :=
  match n with S754_zero _ | S754_finite _ _ _ => true | _ => false end.


Definition is_null (v : value) : bool :=
  match v with VNull => true | _ => false end.

Definition is_undefined (v : value) : bool :=
  match v with VUndefined => true | _ => false end.

(** [v === ''] *)
Definition is_empty_string (v : value) : bool :=
  match v with VString EmptyString => true | _ => false end.

(** The own property [k] of a plain object with the properties [props]. *)
Fixpoint assoc (k : string) (props : list (string * value)) : option value :=
  match props with
  | [] => None
  | (k', v) :: rest => if String.eqb k k' then Some v else assoc k rest
  end.

(** What a plain object has under the name of a method: a callable of its
    own, something of its own that cannot be called, or nothing of its own,
    in which case the member of [Object.prototype] is found. *)
Inductive member : Type :=
| Callable (f : string)
| NotCallable
| Absent.

Definition own_member (props : list (string * value)) (k : string) : member :=
  match assoc k props with
  | Some (VFunction f) => Callable f
  | Some _ => NotCallable
  | None => Absent
  end.

(** The number of a string that is the decimal form of [n]. *)
Definition canonical (n : number) : number :=
  match n with
  | S754_zero _ => S754_zero false
  | _ => n
  end.

End JS.
Import JS.

(** ** Effects: exceptions, state and promises *)

(** The outcome of running a piece of code: a value, or a thrown exception. *)
Inductive completion (A : Type) : Type :=
| Normal (a : A)
| Throw (e : value).

Arguments Normal {A} a.
Arguments Throw {A} e.

(** Code that can throw and has no other effect. *)
Definition cbind {A B : Type} (c : completion A) (k : A -> completion B)
  : completion B :=
  match c with
  | Normal a => k a
  | Throw e => Throw e
  end.

(** [throw new C(...)]: what the constructor throws, or else the instance. *)
Definition throw_new {A : Type} (instance : completion value) : completion A :=
  match instance with
  | Normal e => Throw e
  | Throw e => Throw e
  end.

(** Code that can throw and can read and write a state. *)
Definition M (S A : Type) : Type := S -> completion A * S.

Definition ret {S A : Type} (a : A) : M S A := fun s => (Normal a, s).

Definition throw {S A : Type} (e : value) : M S A := fun s => (Throw e, s).

Definition bind {S A B : Type} (c : M S A) (k : A -> M S B) : M S B :=
  fun s =>
    match c s with
    | (Normal a, s') => k a s'
    | (Throw e, s') => (Throw e, s')
    end.

(** Code without effect on the state, inside code with. *)
Definition pure {S A : Type} (c : completion A) : M S A := fun s => (c, s).

Declare Scope js_scope.
Delimit Scope js_scope with js.
Notation "'let*' x ':=' c 'in' k" := (bind c (fun x => k))
  (at level 10, x name, c at level 100, k at level 200) : js_scope.

Notation "'let?' x ':=' c 'in' k" := (cbind c (fun x => k))
  (at level 10, x name, c at level 100, k at level 200) : js_scope.

Notation "c ';;' k" := (bind c (fun _ => k))
  (at level 100, k at level 200, right associativity) : js_scope.

Local Open Scope js_scope.

(** A TypeError of the engine.  Its message differs from one engine to the
    other and is left empty; the server never reads it. *)
Definition TypeError : value := VError "TypeError" EmptyString.

(** [console.error(e)] writes to the host's diagnostic stream, which neither
    the server nor the handlers read. *)
Definition console_error {S : Type} (e : value) : M S unit := ret tt.

Fixpoint first_rejection (ps : list promise) : option value :=
  match ps with
  | [] => None
  | Rejected e :: _ => Some e
  | _ :: rest => first_rejection rest
  end.

Fixpoint fulfilled_values (ps : list promise) : option (list value) :=
  match ps with
  | [] => Some []
  | Fulfilled v :: rest =>
      match fulfilled_values rest with
      | Some vs => Some (v :: vs)
      | None => None
      end
  | _ :: _ => None
  end.

(** [Promise.all(ps)]: rejected as soon as one element is (the leftmost one
    stands for the earliest), fulfilled with the values in index order once
    all are, pending otherwise. *)
Definition Promise_all (ps : list promise) : promise :=
  match first_rejection ps with
  | Some e => Rejected e
  | None =>
      match fulfilled_values ps with
      | Some vs => Fulfilled (VArray vs)
      | None => Pending
      end
  end.

Fixpoint mapM {S A B : Type} (f : A -> M S B) (l : list A) : M S (list B) :=
  match l with
  | [] => ret []
  | a :: rest =>
      let* b := f a in
      let* bs := mapM f rest in
      ret (b :: bs)
  end.

(** ** The host

    What the library takes from its environment:
    - the numeric reading of a string (StringToNumber: the value of a numeric
      literal, NaN for any other string);
    - the JSON codec: [JSON.parse] throws on some texts; [JSON.stringify]
      yields [undefined] for some values, and is taken to complete (it
      throws on a cycle, which the values here cannot have, and when a
      [toJSON] that it calls throws);
    - what a callable does when a conversion calls it as the [valueOf] or the
      [toString] of the object that holds it: [Call f o] is what [f] returns
      or throws, and such a call is taken to leave the world alone;
    - what becomes of a promise that is resolved with a thenable: [Adopt f o]
      is the state that the promise reaches once the [then] of [o], the
      callable [f], has been called with its resolving functions;
    - the state [World] that the registered handlers read and write.
    Every result below holds for every host. *)
Class Host : Type := {
  StringToNumber : string -> number;
  JSON_stringify : value -> option string;
  JSON_parse : string -> option value;
  Call : string -> value -> completion value;
  Adopt : string -> value -> promise;
  World : Type
}.

(** ** The library *)

Section Server.

Context `{host : Host}.

(** *** Promises *)

(** [Promise.resolve(v)], and the resolution of a promise with [v]: a native
    promise is adopted; an object whose [then] is callable is a thenable, and
    the promise follows it; anything else fulfils the promise. *)
Definition Promise_resolve (v : value) : promise :=
  match v with
  | VPromise p => p
  | VObject props =>
      match own_member props "then" with
      | Callable f => Adopt f v
      | _ => Fulfilled v
      end
  | _ => Fulfilled v
  end.

(** The promise a reaction callback produces: resolved with what the callback
    returns, rejected with what it throws. *)
Definition settle {S : Type} (callback : M S value) : M S promise :=
  fun s =>
    match callback s with
    | (Normal v, s') => (Normal (Promise_resolve v), s')
    | (Throw e, s') => (Normal (Rejected e), s')
    end.

(** [p.then(onFulfilled)] *)
Definition then_ {S : Type} (p : promise) (onFulfilled : value -> M S value)
  : M S promise :=
  match p with
  | Fulfilled v => settle (onFulfilled v)
  | Rejected e => ret (Rejected e)
  | Pending => ret Pending
  end.

(** [p.catch(onRejected)] *)
Definition catch_ {S : Type} (p : promise) (onRejected : value -> M S value)
  : M S promise :=
  match p with
  | Fulfilled v => ret (Fulfilled v)
  | Rejected e => settle (onRejected e)
  | Pending => ret Pending
  end.

(** *** Conversions and property access *)

(** ToNumber of a primitive. *)
Definition ToNumber_primitive (p : value) : number :=
  match p with
  | VNull => S754_zero false
  | VBool b => if b then num_of_Z 1 else S754_zero false
  | VNumber n => n
  | VString s => StringToNumber s
  | _ => S754_nan
  end.

(** The hint of ToPrimitive. *)
Inductive preferredType : Type :=
| hint_number
| hint_string.

(** The number that a primitive stands for once ToPrimitive has produced it:
    its ToNumber under the hint number; under the hint string the number that
    its string form reads as, where the forms of [undefined], [null] and the
    booleans are no numeric literals and the decimal form of a number reads
    as that number. *)
Definition read_primitive (hint : preferredType) (p : value) : number :=
  match hint with
  | hint_number => ToNumber_primitive p
  | hint_string =>
      match p with
      | VNumber n => canonical n
      | VString s => StringToNumber s
      | _ => S754_nan
      end
  end.

(** One step of OrdinaryToPrimitive: the method is called when it is
    callable, and its result stands when it is a primitive; [inherited] is
    the reading of what the member of [Object.prototype] returns, when that
    is a primitive. *)
Definition method_step (hint : preferredType) (o : value) (method : member)
  (inherited : option number) (otherwise : completion number)
  : completion number :=
  match method with
  | Callable f =>
      match Call f o with
      | Normal result =>
          if is_object result then otherwise
          else Normal (read_primitive hint result)
      | Throw e => Throw e
      end
  | NotCallable => otherwise
  | Absent =>
      match inherited with
      | Some n => Normal n
      | None => otherwise
      end
  end.

(** ToPrimitive followed by the reading of the primitive: ToNumber under the
    hint number, and under the hint string the number that ToString reads
    as.
    - A plain object is asked for its [valueOf] and its [toString], in the
      order of the hint.  [Object.prototype.valueOf] returns the object and
      [Object.prototype.toString] a string that is no numeric literal; when
      neither method yields a primitive, the conversion throws a TypeError.
    - An array converts through the join of its elements, each with its
      string form, [undefined] and [null] with the empty string; a join of
      two elements or more holds a comma and is no numeric literal.
    - A wrapper converts through its primitive.
    - An error converts through [Error.prototype.toString]: the name and the
      message with a colon in between, which is no numeric literal, or the
      one of the two that is not empty.
    - The string forms of a callable and of a promise are no numeric
      literals. *)
Fixpoint to_number (hint : preferredType) (v : value) {struct v}
  : completion number :=
  match v with
  | VUndefined | VNull | VBool _ | VNumber _ | VString _ =>
      Normal (read_primitive hint v)
  | VBooleanObject b => Normal (read_primitive hint (VBool b))
  | VNumberObject n => Normal (read_primitive hint (VNumber n))
  | VStringObject s => Normal (read_primitive hint (VString s))
  | VObject props =>
      let by_valueOf := method_step hint v (own_member props "valueOf") None in
      let by_toString :=
        method_step hint v (own_member props "toString") (Some S754_nan) in
      match hint with
      | hint_number => by_valueOf (by_toString (Throw TypeError))
      | hint_string => by_toString (by_valueOf (Throw TypeError))
      end
  | VArray elems =>
      let element x :=
        match x with
        | VUndefined | VNull => Normal (StringToNumber EmptyString)
        | _ => to_number hint_string x
        end in
      let fix first_throw (l : list value) : option value :=
        match l with
        | [] => None
        | x :: rest =>
            match element x with
            | Throw e => Some e
            | Normal _ => first_throw rest
            end
        end in
      match elems with
      | [] => Normal (StringToNumber EmptyString)
      | [x] => element x
      | _ =>
          match first_throw elems with
          | Some e => Throw e
          | None => Normal S754_nan
          end
      end
  | VFunction _ | VPromise _ | VJsonRpcRequestException _ => Normal S754_nan
  | VError name message =>
      Normal (if String.eqb name EmptyString then StringToNumber message
              else if String.eqb message EmptyString then StringToNumber name
              else S754_nan)
  end.

(** ToNumber, the conversion of [Number(v)] and of [isFinite(v)]. *)
Definition ToNumber (v : value) : completion number := to_number hint_number v.

(** ToString, of which the library observes only whether it completes. *)
Definition ToString (v : value) : completion unit :=
  let? _ := to_number hint_string v in Normal tt.

(** [function isNumeric(v) { return !isNaN(Number(v)) && isFinite(v); }] *)
Definition isNumeric (v : value) : completion bool :=
  let? n := ToNumber v in
  if negb (is_nan n) then
    let? m := ToNumber v in Normal (is_finite m)
  else Normal false.

(** The properties of [v] that the server reads ([jsonrpc], [id], [method],
    [params], [errorObj], [code], [message], [data]): none of these names is
    inherited from a built-in prototype, except [name] and [message] of an
    error.  An instance of [JsonRpcRequestException] has the three
    properties its constructor assigns:
    [this.name = 'JsonRpcRequestError'] and
    [this.message = 'JsonRpcRequestError: ' + JSON.stringify(this.errorObj)]. *)
Definition lookup_prop (v : value) (k : string) : option value :=
  match v with
  | VObject props => assoc k props
  | VError name message =>
      if String.eqb k "name" then Some (VString name)
      else if String.eqb k "message" then Some (VString message)
      else None
  | VJsonRpcRequestException errorObj =>
      if String.eqb k "errorObj" then Some errorObj
      else if String.eqb k "name" then Some (VString "JsonRpcRequestError")
      else if String.eqb k "message" then
        Some (VString ("JsonRpcRequestError: " ++
                       match JSON_stringify errorObj with
                       | Some s => s
                       | None => "undefined"
                       end))
      else None
  | _ => None
  end.

(** [k in v], for an object [v]. *)
Definition has_prop (v : value) (k : string) : bool :=
  match lookup_prop v k with Some _ => true | None => false end.

(** [v.k], for a value that is neither [undefined] nor [null]. *)
Definition prop (v : value) (k : string) : value :=
  match lookup_prop v k with Some x => x | None => VUndefined end.

(** [v.k] where [v] may be [undefined] or [null]. *)
Definition get_prop {S : Type} (v : value) (k : string) : M S value :=
  match v with
  | VUndefined | VNull => throw TypeError
  | _ => ret (prop v k)
  end.

(** [o.k = x] on a plain object. *)
Fixpoint assoc_set (k : string) (x : value) (props : list (string * value))
  : list (string * value) :=
  match props with
  | [] => [(k, x)]
  | (k', v) :: rest =>
      if String.eqb k k' then (k, x) :: rest else (k', v) :: assoc_set k x rest
  end.

Definition set_prop (o : value) (k : string) (x : value) : value :=
  match o with
  | VObject props => VObject (assoc_set k x props)
  | _ => o
  end.

(** *** Error model *)

(** [enum JSONRPC_ERRORCODES] *)
Definition PARSE_ERROR : value := VNumber (num_of_Z (-32700)).

Definition INVALID_REQUEST : value := VNumber (num_of_Z (-32600)).

Definition METHOD_NOT_FOUND : value := VNumber (num_of_Z (-32601)).

Definition INVALID_PARAMS : value := VNumber (num_of_Z (-32602)).

Definition INTERNAL_ERROR : value := VNumber (num_of_Z (-32603)).

(** [createErrorObject(code, message?, data?)] *)
Definition createErrorObject (code message data : value) : completion value :=
  let? numeric := isNumeric code in
  let error :=
    VObject [("code", if numeric then code else INTERNAL_ERROR);
             ("message", if truthy message then message
                         else VString "Unspecified error")] in
  Normal (if truthy data then set_prop error "data" data else error).

(** [new JsonRpcRequestException(codeOrObject, message?, data?)], as
    [src/TinyJsonRpcServer.ts] has it.  [super(message)] converts a message
    that is not [undefined] to a string. *)
Definition JsonRpcRequestException (codeOrObject message data : value)
  : completion value :=
  let? _ := if is_undefined message then Normal tt else ToString message in
  let? numeric := isNumeric codeOrObject in
  let? errorObj :=
    if numeric then createErrorObject codeOrObject message data
    else Normal codeOrObject in
  Normal (VJsonRpcRequestException errorObj).

(** The constructor of the JavaScript build ([lib/TinyJsonRpcServer.js], which
    the test-suite loads): [if (codeOrObject === Object(codeOrObject))]; the
    class does not call the constructor of [Error]. *)
Definition JsonRpcRequestException_js (codeOrObject message data : value)
  : completion value :=
  let? errorObj :=
    if is_object codeOrObject then Normal codeOrObject
    else createErrorObject codeOrObject message data in
  Normal (VJsonRpcRequestException errorObj).

(** [e instanceof JsonRpcRequestException] *)
Definition instanceof_JsonRpcRequestException (e : value) : bool :=
  match e with VJsonRpcRequestException _ => true | _ => false end.

(** [createErrorResponse(id, code, message?, data?)] *)
Definition createErrorResponse (id code message data : value) : completion value :=
  let? error := createErrorObject code message data in
  Normal (VObject [("jsonrpc", VString "2.0");
                   ("error", error);
                   ("id", match id with VUndefined => VNull | _ => id end)]).

(** [createParseErrorResponse(message = "Unable to parse JSON", data?)] *)
Definition createParseErrorResponse (message data : value) : completion value :=
  let message :=
    match message with
    | VUndefined => VString "Unable to parse JSON"
    | _ => message
    end in
  createErrorResponse VNull PARSE_ERROR message data.

(** [createResultResponse(result, id)] *)
Definition createResultResponse (result id : value) : value :=
  VObject [("jsonrpc", VString "2.0"); ("result", result); ("id", id)].

(** *** The server and its method table *)

(** A registered handler, [(params, requestContext) => any], and the method
    callback, [(method, params, requestContext) => any].  A call returns or
    throws, and may change the world; a returned promise carries its own
    eventual state. *)
Definition Method : Type := value -> value -> World -> completion value * World.

Definition MethodCallback : Type :=
  value -> value -> value -> World -> completion value * World.

(** [class TinyJsonRpcServer] *)
Record TinyJsonRpcServer : Type := {
  _methods : gmap string Method;
  _methodCallback : option MethodCallback
}.

(** [constructor()] *)
Definition new_TinyJsonRpcServer : TinyJsonRpcServer :=
  {| _methods := ∅; _methodCallback := None |}.

(** [registerMethods(methodObj)]: [{ ...this._methods, ...methodObj }] *)
Definition registerMethods (this : TinyJsonRpcServer) (methodObj : gmap string Method)
  : TinyJsonRpcServer :=
  {| _methods := methodObj ∪ _methods this;
     _methodCallback := _methodCallback this |}.

Definition getRegisteredMethods (this : TinyJsonRpcServer) : gmap string Method :=
  _methods this.

(** [registerMethodCallback(methodCallback)] *)
Definition registerMethodCallback (this : TinyJsonRpcServer) (methodCallback : MethodCallback)
  : TinyJsonRpcServer :=
  {| _methods := _methods this; _methodCallback := Some methodCallback |}.

Definition getMethodCallback (this : TinyJsonRpcServer) : option MethodCallback :=
  _methodCallback this.

(** What the server did to its collaborators: which function it called, with
    which arguments, and how the call ended. *)
Inductive event : Type :=
| Called_method (key : string) (params requestContext : value)
    (outcome : completion value)
| Called_inherited (key : string) (params requestContext : value)
    (outcome : completion value)
| Called_callback (method params requestContext : value)
    (outcome : completion value).

Definition outcome_of (ev : event) : completion value :=
  match ev with
  | Called_method _ _ _ r | Called_inherited _ _ _ r | Called_callback _ _ _ r => r
  end.

Record state : Type := {
  world : World;
  trace : list event
}.

Definition call_method (key : string) (f : Method) (params requestContext : value)
  : M state value :=
  fun s =>
    let '(r, w) := f params requestContext (world s) in
    (r, {| world := w;
           trace := trace s ++ [Called_method key params requestContext r] |}).

Definition call_callback (f : MethodCallback) (method params requestContext : value)
  : M state value :=
  fun s =>
    let '(r, w) := f method params requestContext (world s) in
    (r, {| world := w;
           trace := trace s ++ [Called_callback method params requestContext r] |}).

(** [Object(v)] *)
Definition Object_ (v : value) : value :=
  match v with
  | VUndefined | VNull => VObject []
  | VBool b => VBooleanObject b
  | VNumber n => VNumberObject n
  | VString s => VStringObject s
  | _ => v
  end.

(** [this._methods] is a plain object, so [this._methods[key]] also finds the
    members every plain object inherits from [Object.prototype].  The table
    gives what each of them does when the server calls it as
    [method(params, requestContext)], that is without a receiver: most of
    them throw a TypeError for want of one, [hasOwnProperty] and
    [propertyIsEnumerable] after they have converted their argument to a
    property key. *)
Definition Object_prototype : list (string * (value -> completion value)) :=
  [("constructor", fun params => Normal (Object_ params));
   ("toString", fun _ => Normal (VString "[object Undefined]"));
   ("toLocaleString", fun _ => Throw TypeError);
   ("valueOf", fun _ => Throw TypeError);
   ("hasOwnProperty", fun params => let? _ := ToString params in Throw TypeError);
   ("isPrototypeOf", fun params =>
      if is_object params then Throw TypeError else Normal (VBool false));
   ("propertyIsEnumerable", fun params =>
      let? _ := ToString params in Throw TypeError);
   ("__defineGetter__", fun _ => Throw TypeError);
   ("__defineSetter__", fun _ => Throw TypeError);
   ("__lookupGetter__", fun _ => Throw TypeError);
   ("__lookupSetter__", fun _ => Throw TypeError);
   ("__proto__", fun _ => Throw TypeError)].

Fixpoint inherited (key : string) (table : list (string * (value -> completion value)))
  : option (value -> completion value) :=
  match table with
  | [] => None
  | (k, f) :: rest => if String.eqb key k then Some f else inherited key rest
  end.

Definition call_inherited (key : string) (f : value -> completion value)
  (params requestContext : value) : M state value :=
  fun s =>
    (f params,
     {| world := world s;
        trace := trace s ++ [Called_inherited key params requestContext (f params)] |}).

(** [const method = this._methods[key]; if (method) ...]: the callable found
    under [key], a registered handler first. *)
Definition methods_get (this : TinyJsonRpcServer) (key : string)
  : option (value -> value -> M state value) :=
  match _methods this !! key with
  | Some f => Some (call_method key f)
  | None =>
      match inherited key Object_prototype with
      | Some f => Some (call_inherited key f)
      | None => None
      end
  end.

(** *** Request validation *)

(** [_validateRequest(request)]: an error response, or [null] on success.
    The test of the id converts the id, and throws when the conversion
    does. *)
Definition _validateRequest (request : value) : completion value :=
  let requestId := VNull in
  if negb (is_object request) then
    createErrorResponse requestId INVALID_REQUEST (VString "Invalid request") VUndefined
  else if negb (truthy (prop request "jsonrpc")) then
    createErrorResponse requestId INVALID_REQUEST
      (VString "Invalid request, missing jsonrpc version") VUndefined
  else
    let? checked_id :=
      if has_prop request "id" then
        let? numeric := isNumeric (prop request "id") in
        if numeric || isString (prop request "id") || is_null (prop request "id")
        then Normal (inl (prop request "id"))
        else
          let? errorResponse :=
            createErrorResponse requestId INVALID_REQUEST
              (VString "Invalid request, invalid id") VUndefined in
          Normal (inr errorResponse)
      else Normal (inl requestId) in
    match checked_id with
    | inr errorResponse => Normal errorResponse
    | inl requestId =>
        if negb (isString (prop request "method"))
           || is_empty_string (prop request "method") then
          createErrorResponse requestId INVALID_REQUEST
            (VString "Invalid request, missing method") VUndefined
        else if truthy (prop request "params")
                && negb (Array_isArray (prop request "params")
                         || String.eqb (typeof (prop request "params")) "function"
                         || String.eqb (typeof (prop request "params")) "object") then
          createErrorResponse requestId INVALID_REQUEST
            (VString "Invalid request, invalid parameter type") VUndefined
        else Normal VNull
    end.

(** *** The single-request executor *)

(** The variables [hasRequestId] and [requestId] that the callbacks of one
    call of [_handleJsonRpcRequest] share, next to the state. *)
Record frame : Type := {
  st : state;
  hasRequestId : bool;
  requestId : value
}.

Definition lift {A : Type} (c : M state A) : M frame A :=
  fun fr =>
    let '(r, s) := c (st fr) in
    (r, {| st := s; hasRequestId := hasRequestId fr; requestId := requestId fr |}).

Definition get_hasRequestId : M frame bool := fun fr => (Normal (hasRequestId fr), fr).

Definition get_requestId : M frame value := fun fr => (Normal (requestId fr), fr).

Definition set_hasRequestId (b : bool) : M frame unit :=
  fun fr => (Normal tt, {| st := st fr; hasRequestId := b; requestId := requestId fr |}).

Definition set_requestId (v : value) : M frame unit :=
  fun fr => (Normal tt, {| st := st fr; hasRequestId := hasRequestId fr; requestId := v |}).

Section Executor.

Variable this : TinyJsonRpcServer.

(** Lines 234-247 of the source: the lookup and the call.  [Some result] when
    the callback goes on to await [result]; [None] where the source returns
    the METHOD_NOT_FOUND response.  [_validateRequest] has made sure that
    [request.method] is a string, so that it has characters to serve as the
    property key and in the message. *)
Definition invoke (request requestContext : value) : M state (option value) :=
  match string_data (prop request "method") with
  | None => throw TypeError
  | Some key =>
      match methods_get this key with
      | Some method =>
          let* result := method (prop request "params") requestContext in
          ret (Some result)
      | None =>
          let* result :=
            match _methodCallback this with
            | Some methodCallback =>
                call_callback methodCallback (prop request "method")
                  (prop request "params") requestContext
            | None => ret VUndefined
            end in
          if is_undefined result then ret None else ret (Some result)
      end
  end.

(** ["Method '" + request.method + "' not found"] *)
Definition not_found_message (request : value) : value :=
  VString ("Method '" ++
           match string_data (prop request "method") with
           | Some name => name
           | None => EmptyString
           end ++ "' not found").

(** The callback of the first [then]. *)
Definition on_start (request requestContext : value) : M frame value :=
  let* errorResponse := pure (_validateRequest request) in
  if truthy errorResponse then ret errorResponse
  else
    set_hasRequestId (has_prop request "id") ;;
    let* hasId := get_hasRequestId in
    set_requestId (if hasId then prop request "id" else VNull) ;;
    let* found := lift (invoke request requestContext) in
    match found with
    | None =>
        let* id := get_requestId in
        pure (createErrorResponse id METHOD_NOT_FOUND (not_found_message request)
                VUndefined)
    | Some result =>
        let* p :=
          then_ (Promise_resolve result)
            (fun result =>
               let* hasId := get_hasRequestId in
               if hasId then
                 let* id := get_requestId in
                 ret (createResultResponse result id)
               else ret VNull) in
        ret (VPromise p)
    end.

(** The callback of the first [catch]. *)
Definition on_error (e : value) : M frame value :=
  if instanceof_JsonRpcRequestException e then
    let* id := get_requestId in
    let* errorObj := get_prop e "errorObj" in
    let* code := get_prop errorObj "code" in
    let* message := get_prop errorObj "message" in
    let* data := get_prop errorObj "data" in
    pure (createErrorResponse id code message data)
  else
    console_error e ;;
    let* id := get_requestId in
    pure (createErrorResponse id INTERNAL_ERROR
            (VString "An error occurred when handling request") VUndefined).

(** The callback of the second [catch]. *)
Definition on_critical_error (e : value) : M frame value :=
  console_error e ;;
  let* id := get_requestId in
  pure (createErrorResponse id INTERNAL_ERROR
          (VString "A critical error occurred when handling request") VUndefined).

(** [_handleJsonRpcRequest(request, requestContext)] *)
Definition _handleJsonRpcRequest (request requestContext : value) : M state promise :=
  fun s =>
    let chain : M frame promise :=
      let* p := then_ (Fulfilled VUndefined)
                  (fun _ => on_start request requestContext) in
      let* p := catch_ p on_error in
      catch_ p on_critical_error in
    let '(r, fr) := chain {| st := s; hasRequestId := false; requestId := VNull |} in
    (r, st fr).

End Executor.

(** *** Batches and the entry point *)

(** A parameter declared [requestContext = {}]. *)
Definition default_context (requestContext : value) : value :=
  match requestContext with
  | VUndefined => VObject []
  | _ => requestContext
  end.

(** [responses.filter(response => response !== null)] *)
Definition remove_null (responses : list value) : list value :=
  List.filter (fun response => negb (is_null response)) responses.

(** [_handleJsonRpcBatchRequest(requests, requestContext = {})].  The
    [then] callbacks of the mapped calls run in the order of the array, so
    the handlers are called in that order. *)
Definition _handleJsonRpcBatchRequest (this : TinyJsonRpcServer)
  (requests : list value) (requestContext : value) : M state promise :=
  let requestContext := default_context requestContext in
  let* promises :=
    mapM (fun request => _handleJsonRpcRequest this request requestContext)
      requests in
  let* p :=
    then_ (Promise_all promises)
      (fun responses =>
         match responses with
         | VArray responses => ret (VArray (remove_null responses))
         | _ => throw TypeError
         end) in
  let* p :=
    then_ p
      (fun responses =>
         match responses with
         | VArray l => if Nat.eqb (List.length l) 0 then ret VNull else ret responses
         | _ => throw TypeError
         end) in
  catch_ p
    (fun e =>
       console_error e ;;
       pure (createErrorResponse VNull INTERNAL_ERROR
               (VString "An error occurred when handling request") VUndefined)).

(** [handleJsonRpcRequest(request, requestContext = {})] *)
Definition handleJsonRpcRequest (this : TinyJsonRpcServer)
  (request requestContext : value) : M state promise :=
  let requestContext := default_context requestContext in
  let* p :=
    then_ (Fulfilled VUndefined)
      (fun _ =>
         let* parsed :=
           match (if isString request then string_data request else None) with
           | Some text =>
               match JSON_parse text with
               | Some v => ret (inl v)
               | None =>
                   let* response :=
                     pure (createParseErrorResponse VUndefined VUndefined) in
                   ret (inr response)
               end
           | None => ret (inl request)
           end in
         match parsed with
         | inr response => ret response
         | inl request =>
             match request with
             | VArray requests =>
                 if Nat.eqb (List.length requests) 0 then
                   pure (createErrorResponse VNull INVALID_REQUEST
                           (VString "Invalid request, missing request object(s)")
                           VUndefined)
                 else
                   let* p := _handleJsonRpcBatchRequest this requests requestContext in
                   ret (VPromise p)
             | _ =>
                 let* p := _handleJsonRpcRequest this request requestContext in
                 ret (VPromise p)
             end
         end) in
  catch_ p
    (fun e =>
       console_error e ;;
       pure (createErrorResponse VNull INTERNAL_ERROR
               (VString "An error occurred when processing request") e)).

(** ** The vocabulary of the specification *)

(** *** Validation *)

(** The five refusals of the validator, in the order of the source. *)
Definition refusals : list string :=
  ["Invalid request";
   "Invalid request, missing jsonrpc version";
   "Invalid request, invalid id";
   "Invalid request, missing method";
   "Invalid request, invalid parameter type"].

(** The response of a refusal. *)
Definition refusal (id : value) (message : string) : value :=
  VObject [("jsonrpc", VString "2.0");
           ("error", VObject [("code", INVALID_REQUEST);
                              ("message", VString message)]);
           ("id", id)].

(** The test of the id in [_validateRequest]. *)
Definition accepted_id (id : value) : completion bool :=
  let? numeric := isNumeric id in
  Normal (numeric || isString id || is_null id).

(** The test of the params in [_validateRequest]. *)
Definition accepted_params (params : value) : bool :=
  negb (truthy params)
  || (Array_isArray params
      || String.eqb (typeof params) "function"
      || String.eqb (typeof params) "object").

(** The id the executor answers with: that of the request, [null] without. *)
Definition resolved_id (request : value) : value :=
  if has_prop request "id" then prop request "id" else VNull.

(** *** Calls and their outcomes *)

(** The call made for [request] returned, and what it returned (awaited when
    it is a promise or a thenable) is the value [v]. *)
Definition completes_with (this : TinyJsonRpcServer) (request requestContext : value)
  (s : state) (v : value) (s' : state) : Prop :=
  exists result,
    invoke this request requestContext s = (Normal (Some result), s') /\
    Promise_resolve result = Fulfilled v.

(** The call made for [request] threw [e], or returned a promise that is
    rejected with [e]. *)
Definition fails_with (this : TinyJsonRpcServer) (request requestContext : value)
  (s : state) (e : value) (s' : state) : Prop :=
  invoke this request requestContext s = (Throw e, s') \/
  exists result,
    invoke this request requestContext s = (Normal (Some result), s') /\
    Promise_resolve result = Rejected e.

(** The INTERNAL_ERROR response with the given message. *)
Definition internal_error_response (id : value) (message : string) : value :=
  VObject [("jsonrpc", VString "2.0");
           ("error", VObject [("code", INTERNAL_ERROR);
                              ("message", VString message)]);
           ("id", match id with VUndefined => VNull | _ => id end)].

(** What the two [catch] callbacks make of a failure [e]: the second one
    answers when the first one throws, which it does when the exception has
    no error object and when the conversion of its code throws. *)
Definition error_outcome (id e : value) : value :=
  let critical :=
    internal_error_response id "A critical error occurred when handling request" in
  if instanceof_JsonRpcRequestException e then
    match prop e "errorObj" with
    | VUndefined | VNull => critical
    | errorObj =>
        match createErrorResponse id (prop errorObj "code")
                (prop errorObj "message") (prop errorObj "data") with
        | Normal response => response
        | Throw _ => critical
        end
    end
  else internal_error_response id "An error occurred when handling request".

(** The error member of that response. *)
Definition error_member (e : value) : value :=
  let critical :=
    VObject [("code", INTERNAL_ERROR);
             ("message",
              VString "A critical error occurred when handling request")] in
  if instanceof_JsonRpcRequestException e then
    match prop e "errorObj" with
    | VUndefined | VNull => critical
    | errorObj =>
        match createErrorObject (prop errorObj "code")
                (prop errorObj "message") (prop errorObj "data") with
        | Normal built => built
        | Throw _ => critical
        end
    end
  else
    VObject [("code", INTERNAL_ERROR);
             ("message", VString "An error occurred when handling request")].

(** The METHOD_NOT_FOUND response to [request]. *)
Definition not_found_response (request : value) : value :=
  VObject [("jsonrpc", VString "2.0");
           ("error", VObject [("code", METHOD_NOT_FOUND);
                              ("message", not_found_message request)]);
           ("id", match resolved_id request with
                  | VUndefined => VNull
                  | _ => resolved_id request
                  end)].

(** What the executor answers to a request that the validator does not
    accept: the refusal, or what the [catch] callbacks make of what the
    validator threw; [requestId] is still [null] then. *)
Definition rejection (request : value) : value :=
  match _validateRequest request with
  | Normal refusal => refusal
  | Throw e => error_outcome VNull e
  end.

(** A response: what [createResultResponse] or [createErrorResponse] builds. *)
Definition is_response (v : value) : Prop :=
  (exists result id, v = createResultResponse result id) \/
  (exists id code message data,
      createErrorResponse id code message data = Normal v).

(** What the entry point may resolve to: [null], one response, or a
    non-empty array of responses. *)
Definition is_outcome (v : value) : Prop :=
  v = VNull \/ is_response v \/
  exists l, v = VArray l /\ l <> [] /\ Forall is_response l.

(** A call that returned a promise, or a thenable, which never settles. *)
Definition never_settles (ev : event) : Prop :=
  exists result,
    outcome_of ev = Normal result /\ Promise_resolve result = Pending.

(** What one run of the executor leaves: no rejection, a response or [null]
    when it resolves, and a call that never settles when it does not. *)
Definition executor_post (evs : list event) (p : promise) : Prop :=
  match p with
  | Fulfilled v => v = VNull \/ is_response v
  | Rejected _ => False
  | Pending => Exists never_settles evs
  end.

(** An unexpected fault in the handling of [request] from the state [s]: the
    validator throws, or the call made for the valid request fails, with
    something that is no [JsonRpcRequestException]. *)
Definition unexpected_fault (this : TinyJsonRpcServer)
  (request requestContext : value) (s : state) (e : value) : Prop :=
  instanceof_JsonRpcRequestException e = false /\
  (_validateRequest request = Throw e \/
   (_validateRequest request = Normal VNull /\
    exists s', fails_with this request requestContext s e s')).

(** The id that the answer to a fault carries: the resolved id, and [null]
    when the validator threw. *)
Definition fault_id (request : value) : value :=
  match _validateRequest request with
  | Normal _ => resolved_id request
  | Throw _ => VNull
  end.

(** *** Batches and routing *)

Definition promise_of (c : completion promise) : promise :=
  match c with
  | Normal p => p
  | Throw e => Rejected e
  end.

(** The executor applied to each entry in the order of the array, each run
    starting in the state the previous one left. *)
Fixpoint run_each (this : TinyJsonRpcServer) (requests : list value)
  (requestContext : value) (s : state) : list promise * state :=
  match requests with
  | [] => ([], s)
  | request :: rest =>
      let '(c, s1) := _handleJsonRpcRequest this request requestContext s in
      let '(ps, s2) := run_each this rest requestContext s1 in
      (promise_of c :: ps, s2)
  end.

(** Every request of the list succeeds when its turn comes: it is valid and
    the call made for it completes.  [vs] are the values that the calls
    complete with, in the order of the requests, and [s'] is the state that
    the last call leaves. *)
Fixpoint all_succeed (this : TinyJsonRpcServer) (requests : list value)
  (requestContext : value) (s : state) (vs : list value) (s' : state) : Prop :=
  match requests, vs with
  | [], [] => s' = s
  | request :: rest, v :: vs =>
      _validateRequest request = Normal VNull /\
      exists s1,
        completes_with this request requestContext s v s1 /\
        all_succeed this rest requestContext s1 vs s'
  | _, _ => False
  end.

(** The result responses to the requests that have an id, each with the
    value that its call completed with, in the order of the requests. *)
Fixpoint result_responses (requests vs : list value) : list value :=
  match requests, vs with
  | request :: rest, v :: vs =>
      if has_prop request "id"
      then VObject [("jsonrpc", VString "2.0");
                    ("result", v);
                    ("id", prop request "id")]
           :: result_responses rest vs
      else result_responses rest vs
  | _, _ => []
  end.

(** A notification is a request without an id field. *)
Definition is_notification (request : value) : bool :=
  negb (has_prop request "id").

Definition missing_requests_response : value :=
  VObject [("jsonrpc", VString "2.0");
           ("error", VObject [("code", INVALID_REQUEST);
                              ("message",
                               VString "Invalid request, missing request object(s)")]);
           ("id", VNull)].

(** The response to a text that does not parse. *)
Definition parse_error_response : value :=
  VObject [("jsonrpc", VString "2.0");
           ("error", VObject [("code", PARSE_ERROR);
                              ("message", VString "Unable to parse JSON")]);
           ("id", VNull)].

(** The value that the entry point handles: the request itself, or what its
    text parses to. *)
Definition denotes (request parsed : value) : Prop :=
  match (if isString request then string_data request else None) with
  | Some text => JSON_parse text = Some parsed
  | None => parsed = request
  end.

(** Where the entry point sends a request that is parsed already. *)
Definition route (this : TinyJsonRpcServer) (request requestContext : value)
  : M state promise :=
  match request with
  | VArray [] => ret (Fulfilled missing_requests_response)
  | VArray requests =>
      _handleJsonRpcBatchRequest this requests (default_context requestContext)
  | _ => _handleJsonRpcRequest this request (default_context requestContext)
  end.

(** A method name that no plain object inherits. *)
Definition ordinary (key : string) : Prop :=
  inherited key Object_prototype = None.

(** *** Requests and responses as the types declare them *)

(** A request as [interface JsonRpcRequest] and [type JsonRpcId] declare it,
    read with the protocol: a plain object whose [jsonrpc] and [method] are
    non-empty strings, whose [id], when present, is a string, a finite number
    or [null], and whose [params], when present, is an object. *)
Definition conforming (request : value) : bool :=
  match request with
  | VObject props =>
      match assoc "jsonrpc" props with
      | Some (VString version) => negb (String.eqb version EmptyString)
      | _ => false
      end
      && match assoc "method" props with
         | Some (VString method) => negb (String.eqb method EmptyString)
         | _ => false
         end
      && match assoc "id" props with
         | None | Some VNull | Some (VString _) => true
         | Some (VNumber n) => is_finite n
         | Some _ => false
         end
      && match assoc "params" props with
         | None => true
         | Some params => is_undefined params || is_object params
         end
  | _ => false
  end.

(** An error member as [interface ErrorObject] declares it, as far as the
    library checks: a code that [isNumeric] accepts, a truthy message, and a
    [data] member only when it is truthy. *)
Definition well_formed_error (error : value) : Prop :=
  exists code message,
    isNumeric code = Normal true /\ truthy message = true /\
    (error = VObject [("code", code); ("message", message)] \/
     exists data,
       truthy data = true /\
       error = VObject [("code", code); ("message", message); ("data", data)]).

(** A response as [interface JsonRpcResponse] declares it: the version, a
    [result] or a well-formed [error], and an id that passes the test of the
    validator, so that it is never [undefined]. *)
Definition well_formed_response (v : value) : Prop :=
  exists id,
    accepted_id id = Normal true /\
    ((exists result,
         v = VObject [("jsonrpc", VString "2.0"); ("result", result); ("id", id)]) \/
     (exists error,
         well_formed_error error /\
         v = VObject [("jsonrpc", VString "2.0"); ("error", error); ("id", id)])).


End Server.

(** ** A host and a server to run the model on

    The closed instances at the end of the file run on a small host: it
    reads a string of at most fifteen decimal digits as the number it denotes
    and no other string as a number, it parses the JSON texts of the empty
    array and of [null], it knows a few callables by name, and its world is a
    counter of the calls made, like [_callCount] in the tests of the
    repository. *)

Module Sample.

Fixpoint decimal (text : string) (acc : Z) : option Z :=
  match text with
  | EmptyString => Some acc
  | String c rest =>
      let d := (Z.of_nat (Ascii.nat_of_ascii c) - 48)%Z in
      if (0 <=? d)%Z && (d <=? 9)%Z then decimal rest (10 * acc + d)%Z else None
  end.

Definition read_number (text : string) : number :=
  if Nat.leb (String.length text) 15 then
    match decimal text 0 with
    | Some z => num_of_Z z
    | None => S754_nan
    end
  else S754_nan.

Definition stringify (v : value) : option string :=
  match v with
  | VUndefined | VFunction _ => None
  | VNull => Some "null"
  | _ => Some "{}"
  end.

Definition parse (text : string) : option value :=
  if String.eqb text "[]" then Some (VArray [])
  else if String.eqb text "null" then Some VNull
  else None.

(** [() => 5], and a method that throws for any other name. *)
Definition call_function (f : string) (o : value) : completion value :=
  if String.eqb f "five" then Normal (VNumber (num_of_Z 5))
  else Throw (VError "Error" "not callable here").

(** [(resolve) => resolve('Hello World!')],
    [(resolve, reject) => reject(new Error('Forced exception'))], and a
    [then] that calls neither of its arguments for any other name. *)
Definition adopt_thenable (f : string) (o : value) : promise :=
  if String.eqb f "resolveHello" then Fulfilled (VString "Hello World!")
  else if String.eqb f "rejectForced" then Rejected (VError "Error" "Forced exception")
  else Pending.

Definition host : Host :=
  {| StringToNumber := read_number;
     JSON_stringify := stringify;
     JSON_parse := parse;
     Call := call_function;
     Adopt := adopt_thenable;
     World := nat |}.

#[local] Existing Instance host.

Definition one : value := VNumber (num_of_Z 1).
Definition zero : value := VNumber (S754_zero false).

(** [{toString: 1}], an object that does not convert, as the JSON text
    [{"toString": 1}] parses to it. *)
Definition unconvertible : value := VObject [("toString", one)].

(** [getHelloString] of the tests. *)
Definition getHelloString : Method :=
  fun _ _ w => (Normal (VString "Hello World!"), S w).

(** [alwaysException] of the tests: [throw new Error('Forced exception')]. *)
Definition alwaysException : Method :=
  fun _ _ w => (Throw (VError "Error" "Forced exception"), S w).

(** A handler that returns [new Promise(() => {})]. *)
Definition hang : Method :=
  fun _ _ w => (Normal (VPromise Pending), S w).

(** An error object with a falsy [data], and a handler that throws an
    exception made from it. *)
Definition retry_error : value :=
  VObject [("code", one); ("message", VString "retry"); ("data", zero)].

Definition retry : Method :=
  fun _ _ w =>
    (throw_new (JsonRpcRequestException retry_error VUndefined VUndefined), S w).

(** [throwParamError("Invalid parameter 'a', not a number")] of the tests,
    thrown by the handler itself and inside the promise it returns. *)
Definition param_error : completion value :=
  JsonRpcRequestException INVALID_PARAMS
    (VString "Invalid parameter 'a', not a number") VUndefined.

Definition addNumbers_invalid : Method :=
  fun _ _ w => (throw_new param_error, S w).

Definition asyncAddNumbers_invalid : Method :=
  fun _ _ w =>
    (match param_error with
     | Normal e => Normal (VPromise (Rejected e))
     | Throw e => Throw e
     end, S w).

(** A handler that resolves later, like [asyncAddNumbers]. *)
Definition asyncHello : Method :=
  fun _ _ w => (Normal (VPromise (Fulfilled (VString "Hello World!"))), S w).

Definition server : TinyJsonRpcServer :=
  registerMethods new_TinyJsonRpcServer
    {[ "getHelloString" := getHelloString;
       "alwaysException" := alwaysException;
       "hang" := hang;
       "retry" := retry;
       "addNumbers" := addNumbers_invalid;
       "asyncAddNumbers" := asyncAddNumbers_invalid;
       "asyncHello" := asyncHello ]}.

(** The method callback of the tests: it knows one method, and returns
    [undefined] for any other. *)
Definition methodCallback : MethodCallback :=
  fun method _ _ w =>
    match method with
    | VString "getHelloString" => (Normal (VString "Hello callback World!"), S w)
    | _ => (Normal VUndefined, S w)
    end.

Definition callback_server : TinyJsonRpcServer :=
  registerMethodCallback new_TinyJsonRpcServer methodCallback.

(** A handler that throws [new JsonRpcRequestException(undefined)], an
    exception without an error object; a handler that throws an exception
    whose code does not convert; a handler that returns a thenable and one
    that returns a thenable which never settles.  They are registered after
    the others, together with a handler under a name that every object
    inherits. *)
Definition bare_exception : Method :=
  fun _ _ w =>
    (throw_new (JsonRpcRequestException VUndefined VUndefined VUndefined), S w).

Definition odd_code : Method :=
  fun _ _ w =>
    (throw_new
       (JsonRpcRequestException
          (VObject [("code", unconvertible); ("message", VString "m")])
          VUndefined VUndefined), S w).

Definition thenable (f : string) : value := VObject [("then", VFunction f)].

Definition later : Method :=
  fun _ _ w => (Normal (thenable "resolveHello"), S w).

Definition never : Method :=
  fun _ _ w => (Normal (thenable "forget"), S w).

Definition extended_server : TinyJsonRpcServer :=
  registerMethods server
    {[ "bare" := bare_exception;
       "oddCode" := odd_code;
       "later" := later;
       "never" := never;
       "toString" := getHelloString ]}.

(** A method callback that returns [Promise.resolve(undefined)]. *)
Definition deferred_undefined : MethodCallback :=
  fun _ _ _ w => (Normal (VPromise (Fulfilled VUndefined)), S w).

Definition deferred_server : TinyJsonRpcServer :=
  registerMethodCallback new_TinyJsonRpcServer deferred_undefined.

Definition call (method : string) (id : value) : value :=
  VObject [("jsonrpc", VString "2.0"); ("method", VString method); ("id", id)].

Definition notify (method : string) : value :=
  VObject [("jsonrpc", VString "2.0"); ("method", VString method)].

Definition start : state := {| world := 0; trace := [] |}.

(** The state after [calls] calls that left the trace [evs]. *)
Definition after (calls : nat) (evs : list event) : state :=
  {| world := calls; trace := evs |}.

Definition handle : value -> value -> M state promise :=
  handleJsonRpcRequest server.

Definition execute : value -> value -> M state promise :=
  _handleJsonRpcRequest server.

Definition batch : list value -> value -> M state promise :=
  _handleJsonRpcBatchRequest server.

(** What the promise of the entry point resolves to, the state left aside. *)
Definition answer (this : TinyJsonRpcServer) (request : value) : completion promise :=
  fst (handleJsonRpcRequest this request VUndefined start).

Definition result_response (result id : value) : value :=
  VObject [("jsonrpc", VString "2.0"); ("result", result); ("id", id)].

Definition error_response (code : Z) (message : string) (id : value) : value :=
  VObject [("jsonrpc", VString "2.0");
           ("error", VObject [("code", VNumber (num_of_Z code));
                              ("message", VString message)]);
           ("id", id)].

End Sample.

(** ** Properties *)

Section Properties.

Context `{host : Host}.

Create HintDb responses.

(** Case analysis on what was thrown: an instance of
    [JsonRpcRequestException], with its error object, or anything else. *)
Ltac thrown e errorObj :=
  destruct e as [| | | | | | | | | | | | |errorObj].

(** *** Conversions *)

(** The test for NaN adds nothing to [isNumeric]. *)
Lemma isNumeric_eq (v : value) :
  isNumeric v = let? n := ToNumber v in Normal (is_finite n).
Proof.
  unfold isNumeric, cbind. destruct (ToNumber v) as [n|e]; [|reflexivity].
  now destruct n.
Qed.

(** On a primitive the conversion does not throw. *)
Lemma isNumeric_primitive (v : value) :
  is_object v = false ->
  isNumeric v = Normal (is_finite (ToNumber_primitive v)).
Proof.
  intros H. rewrite isNumeric_eq.
  destruct v; try discriminate H; reflexivity.
Qed.

Lemma isNumeric_number (n : number) : isNumeric (VNumber n) = Normal (is_finite n).
Proof. now rewrite isNumeric_primitive. Qed.

(** *** Shapes of the responses *)

Lemma createErrorObject_shape (code message data : value) :
  createErrorObject code message data =
  let? numeric := isNumeric code in
  Normal (VObject (("code", if numeric then code else INTERNAL_ERROR)
                   :: ("message", if truthy message then message
                                  else VString "Unspecified error")
                   :: (if truthy data then [("data", data)] else []))).
Proof.
  unfold createErrorObject, cbind.
  destruct (isNumeric code) as [numeric|e]; [|reflexivity].
  destruct (truthy data); reflexivity.
Qed.

Lemma createErrorResponse_shape (id code message data : value) :
  createErrorResponse id code message data =
  let? numeric := isNumeric code in
  Normal (VObject
            [("jsonrpc", VString "2.0");
             ("error",
              VObject (("code", if numeric then code else INTERNAL_ERROR)
                       :: ("message", if truthy message then message
                                      else VString "Unspecified error")
                       :: (if truthy data then [("data", data)] else [])));
             ("id", match id with VUndefined => VNull | _ => id end)]).
Proof.
  unfold createErrorResponse. rewrite createErrorObject_shape. unfold cbind.
  now destruct (isNumeric code).
Qed.

(** What [createErrorResponse] returns is an object that is no thenable. *)
Lemma createErrorResponse_object (id code message data response : value) :
  createErrorResponse id code message data = Normal response ->
  truthy response = true /\ Promise_resolve response = Fulfilled response /\
  response <> VNull.
Proof.
  rewrite createErrorResponse_shape. unfold cbind.
  destruct (isNumeric code); [|discriminate].
  intros [= <-]. repeat split. discriminate.
Qed.

Lemma internal_error_response_eq (id : value) (message : string) :
  message <> EmptyString ->
  createErrorResponse id INTERNAL_ERROR (VString message) VUndefined
  = Normal (internal_error_response id message).
Proof.
  intros H. rewrite createErrorResponse_shape. cbn.
  now destruct message.
Qed.

Lemma internal_error_response_resolve (id : value) (message : string) :
  Promise_resolve (internal_error_response id message)
  = Fulfilled (internal_error_response id message).
Proof. reflexivity. Qed.

Lemma defined_id (id : value) :
  id <> VUndefined -> match id with VUndefined => VNull | _ => id end = id.
Proof. intros H. destruct id; try reflexivity. now destruct H. Qed.

Lemma refusal_eq (id : value) (message : string) :
  id <> VUndefined -> message <> EmptyString ->
  createErrorResponse id INVALID_REQUEST (VString message) VUndefined
  = Normal (refusal id message).
Proof.
  intros Hid Hm. rewrite createErrorResponse_shape. cbn.
  rewrite (defined_id _ Hid). unfold refusal. now destruct message.
Qed.

(** Building an error object from the fields of one that [createErrorObject]
    built gives it back. *)
Lemma createErrorObject_idempotent (code message data errorObj : value) :
  createErrorObject code message data = Normal errorObj ->
  createErrorObject (prop errorObj "code") (prop errorObj "message")
    (prop errorObj "data") = Normal errorObj.
Proof.
  rewrite (createErrorObject_shape code message data). unfold cbind.
  destruct (isNumeric code) as [numeric|e] eqn:Hn; [|discriminate].
  intros [= <-].
  assert (Hc : isNumeric (if numeric then code else INTERNAL_ERROR) = Normal true)
    by (destruct numeric; [exact Hn | reflexivity]).
  assert (Hm : truthy (if truthy message then message
                       else VString "Unspecified error") = true)
    by (destruct (truthy message) eqn:E; [exact E | reflexivity]).
  destruct (truthy data) eqn:Hd;
    rewrite createErrorObject_shape;
    cbn [prop lookup_prop assoc String.eqb Ascii.eqb Bool.eqb];
    rewrite Hc; cbn [cbind]; rewrite Hm.
  - rewrite Hd. reflexivity.
  - reflexivity.
Qed.

Lemma is_response_error (id code message data response : value) :
  createErrorResponse id code message data = Normal response ->
  is_response response.
Proof. intros H. right. now exists id, code, message, data. Qed.

Lemma is_response_result (result id : value) :
  is_response (createResultResponse result id).
Proof. left. now exists result, id. Qed.

Lemma is_response_internal (id : value) (message : string) :
  message <> EmptyString -> is_response (internal_error_response id message).
Proof.
  intros H. eapply is_response_error. now apply internal_error_response_eq.
Qed.

Lemma is_response_not_null (v : value) : is_response v -> v <> VNull.
Proof.
  intros [(result & id & ->) | (id & code & message & data & H)];
    [discriminate|].
  now apply createErrorResponse_object in H.
Qed.

Lemma error_outcome_is_response (id e : value) : is_response (error_outcome id e).
Proof.
  unfold error_outcome.
  destruct (instanceof_JsonRpcRequestException e);
    [|now apply is_response_internal].
  destruct (prop e "errorObj");
    try (now apply is_response_internal);
    match goal with
    | |- context [createErrorResponse ?i ?c ?m ?d] =>
        destruct (createErrorResponse i c m d) eqn:E;
          [now apply is_response_error in E | now apply is_response_internal]
    end.
Qed.

Lemma error_outcome_resolve (id e : value) :
  Promise_resolve (error_outcome id e) = Fulfilled (error_outcome id e).
Proof.
  unfold error_outcome.
  destruct (instanceof_JsonRpcRequestException e); [|reflexivity].
  destruct (prop e "errorObj");
    try reflexivity;
    match goal with
    | |- context [createErrorResponse ?i ?c ?m ?d] =>
        destruct (createErrorResponse i c m d) eqn:E;
          [now apply createErrorResponse_object in E | reflexivity]
    end.
Qed.

Lemma not_found_response_eq (request : value) :
  createErrorResponse (resolved_id request) METHOD_NOT_FOUND
    (not_found_message request) VUndefined
  = Normal (not_found_response request).
Proof. rewrite createErrorResponse_shape. reflexivity. Qed.

Lemma is_response_not_found (request : value) :
  is_response (not_found_response request).
Proof. eapply is_response_error, not_found_response_eq. Qed.

#[local] Hint Resolve is_response_result error_outcome_is_response
  is_response_not_found : responses.

(** *** The validator *)

Lemma accepted_id_defined (id : value) :
  accepted_id id = Normal true -> id <> VUndefined.
Proof. intros H ->. discriminate H. Qed.

(** The validator as a cascade: the first test that fails decides, the test
    of the id may throw, and the two last refusals carry the id that passed
    that test. *)
Lemma _validateRequest_order (request : value) :
  _validateRequest request =
  if negb (is_object request) then
    Normal (refusal VNull "Invalid request")
  else if negb (truthy (prop request "jsonrpc")) then
    Normal (refusal VNull "Invalid request, missing jsonrpc version")
  else
    match (if has_prop request "id" then accepted_id (prop request "id")
           else Normal true) with
    | Throw e => Throw e
    | Normal false => Normal (refusal VNull "Invalid request, invalid id")
    | Normal true =>
        if negb (isString (prop request "method"))
           || is_empty_string (prop request "method") then
          Normal (refusal (resolved_id request) "Invalid request, missing method")
        else if negb (accepted_params (prop request "params")) then
          Normal (refusal (resolved_id request)
                    "Invalid request, invalid parameter type")
        else Normal VNull
    end.
Proof.
  unfold _validateRequest, accepted_id, accepted_params, resolved_id.
  destruct (is_object request); [|reflexivity].
  destruct (truthy (prop request "jsonrpc")); [|reflexivity].
  cbn [negb]. cbv iota.
  assert (Htail : forall id,
    id <> VUndefined ->
    (if negb (isString (prop request "method"))
        || is_empty_string (prop request "method")
     then createErrorResponse id INVALID_REQUEST
            (VString "Invalid request, missing method") VUndefined
     else if truthy (prop request "params")
             && negb (Array_isArray (prop request "params")
                      || String.eqb (typeof (prop request "params")) "function"
                      || String.eqb (typeof (prop request "params")) "object")
          then createErrorResponse id INVALID_REQUEST
                 (VString "Invalid request, invalid parameter type") VUndefined
          else Normal VNull) =
    (if negb (isString (prop request "method"))
        || is_empty_string (prop request "method")
     then Normal (refusal id "Invalid request, missing method")
     else if negb (negb (truthy (prop request "params"))
                   || (Array_isArray (prop request "params")
                       || String.eqb (typeof (prop request "params")) "function"
                       || String.eqb (typeof (prop request "params")) "object"))
          then Normal (refusal id "Invalid request, invalid parameter type")
          else Normal VNull)).
  { intros id Hid.
    destruct (negb (isString (prop request "method"))
              || is_empty_string (prop request "method"));
      [now apply refusal_eq|].
    destruct (truthy (prop request "params")); [|reflexivity].
    cbn [negb andb orb].
    destruct (Array_isArray (prop request "params")
              || String.eqb (typeof (prop request "params")) "function"
              || String.eqb (typeof (prop request "params")) "object");
      [reflexivity | now apply refusal_eq]. }
  destruct (has_prop request "id").
  - unfold cbind at 1.
    destruct (isNumeric (prop request "id")) as [numeric|e] eqn:Hn;
      [|reflexivity].
    cbn [cbind].
    destruct (numeric || isString (prop request "id")
              || is_null (prop request "id")) eqn:Hacc; [|reflexivity].
    cbn [cbind]. apply Htail.
    intros Hu. rewrite Hu in Hn, Hacc. cbn in Hn. injection Hn as <-.
    discriminate Hacc.
  - cbn [cbind]. now apply Htail.
Qed.

Lemma resolved_id_accepted (request : value) :
  (has_prop request "id" = true -> accepted_id (prop request "id") = Normal true) ->
  accepted_id (resolved_id request) = Normal true.
Proof.
  unfold resolved_id. destruct (has_prop request "id"); [auto | reflexivity].
Qed.

(** The three ways the validator ends: it accepts; it refuses, the three
    first refusals with the id [null] and the two last ones with the id of
    the request; or it throws what the conversion of the id throws. *)
Lemma _validateRequest_cases (request : value) :
  _validateRequest request = Normal VNull \/
  (exists id message,
      _validateRequest request = Normal (refusal id message) /\
      accepted_id id = Normal true /\
      ((id = VNull /\ In message (firstn 3 refusals)) \/
       (id = resolved_id request /\ In message (skipn 3 refusals)))) \/
  (exists e,
      _validateRequest request = Throw e /\
      has_prop request "id" = true /\
      isNumeric (prop request "id") = Throw e).
Proof.
  rewrite _validateRequest_order.
  destruct (negb (is_object request)).
  { right; left. exists VNull. eexists. split; [reflexivity|].
    split; [reflexivity|]. left. split; [reflexivity|]. cbn. tauto. }
  destruct (negb (truthy (prop request "jsonrpc"))).
  { right; left. exists VNull. eexists. split; [reflexivity|].
    split; [reflexivity|]. left. split; [reflexivity|]. cbn. tauto. }
  destruct (if has_prop request "id" then accepted_id (prop request "id")
            else Normal true) as [[|]|e] eqn:Hid.
  - assert (Hacc : accepted_id (resolved_id request) = Normal true).
    { apply resolved_id_accepted. intros Hh. now rewrite Hh in Hid. }
    destruct (negb (isString (prop request "method"))
              || is_empty_string (prop request "method")).
    { right; left. exists (resolved_id request). eexists.
      split; [reflexivity|]. split; [exact Hacc|].
      right. split; [reflexivity|]. cbn. tauto. }
    destruct (negb (accepted_params (prop request "params"))).
    { right; left. exists (resolved_id request). eexists.
      split; [reflexivity|]. split; [exact Hacc|].
      right. split; [reflexivity|]. cbn. tauto. }
    now left.
  - right; left. exists VNull. eexists. split; [reflexivity|].
    split; [reflexivity|]. left. split; [reflexivity|]. cbn. tauto.
  - right; right. exists e. split; [reflexivity|].
    destruct (has_prop request "id"); [|discriminate Hid].
    split; [reflexivity|].
    unfold accepted_id, cbind in Hid.
    destruct (isNumeric (prop request "id")); [discriminate Hid | exact Hid].
Qed.

Lemma _validateRequest_null (request : value) :
  _validateRequest request = Normal VNull <->
  is_object request = true /\
  truthy (prop request "jsonrpc") = true /\
  (has_prop request "id" = true -> accepted_id (prop request "id") = Normal true) /\
  isString (prop request "method") = true /\
  is_empty_string (prop request "method") = false /\
  accepted_params (prop request "params") = true.
Proof.
  rewrite _validateRequest_order.
  destruct (is_object request);
    destruct (truthy (prop request "jsonrpc"));
    destruct (has_prop request "id");
    destruct (accepted_id (prop request "id")) as [[|]|e];
    destruct (isString (prop request "method"));
    destruct (is_empty_string (prop request "method"));
    destruct (accepted_params (prop request "params"));
    cbn [negb andb orb]; cbv iota;
    (split;
     [ intros H; try discriminate H; repeat split; auto;
       intros Hf; discriminate Hf
     | intros (H1 & H2 & H3 & H4 & H5 & H6);
       try reflexivity; try discriminate;
       try (specialize (H3 eq_refl); discriminate) ]).
Qed.

Lemma refusal_object (id : value) (message : string) :
  truthy (refusal id message) = true /\
  Promise_resolve (refusal id message) = Fulfilled (refusal id message) /\
  refusal id message <> VNull.
Proof. repeat split. discriminate. Qed.

Lemma is_response_refusal (id : value) (message : string) :
  accepted_id id = Normal true -> In message refusals ->
  is_response (refusal id message).
Proof.
  intros Hid Hm. eapply is_response_error, refusal_eq.
  - now apply accepted_id_defined.
  - cbn in Hm. intuition (subst; discriminate).
Qed.

Lemma refusals_split (message : string) :
  In message (firstn 3 refusals) \/ In message (skipn 3 refusals) ->
  In message refusals.
Proof. cbn. tauto. Qed.

Lemma _validateRequest_truthy (request refused : value) :
  _validateRequest request = Normal refused -> refused <> VNull ->
  truthy refused = true /\ Promise_resolve refused = Fulfilled refused /\
  is_response refused.
Proof.
  intros Hv Hn.
  destruct (_validateRequest_cases request)
    as [H | [(id & msg & H & Hid & Hm) | (e & H & _)]];
    rewrite H in Hv; try discriminate Hv; injection Hv as <-.
  - now destruct Hn.
  - repeat split. apply is_response_refusal; [exact Hid|].
    apply refusals_split. tauto.
Qed.

Lemma resolved_id_defined (request : value) :
  _validateRequest request = Normal VNull -> resolved_id request <> VUndefined.
Proof.
  intros Hv. apply _validateRequest_null in Hv as (_ & _ & Hid & _).
  now apply accepted_id_defined, resolved_id_accepted.
Qed.

Lemma valid_resolved_id_accepted (request : value) :
  _validateRequest request = Normal VNull ->
  accepted_id (resolved_id request) = Normal true.
Proof.
  intros Hv. apply resolved_id_accepted.
  now apply _validateRequest_null in Hv as (_ & _ & Hid & _).
Qed.

(** The test of the id on the primitives: a number passes when it is finite, a
    string and [null] pass, [undefined] does not, and a boolean passes. *)
Lemma accepted_id_primitives :
  (forall n, accepted_id (VNumber n) = Normal (is_finite n)) /\
  (forall text, accepted_id (VString text) = Normal true) /\
  accepted_id VNull = Normal true /\
  accepted_id VUndefined = Normal false /\
  (forall b, accepted_id (VBool b) = Normal true).
Proof.
  unfold accepted_id. repeat split.
  - intros n. rewrite isNumeric_number. cbn. now destruct (is_finite n).
  - intros text. rewrite isNumeric_primitive by reflexivity. cbn.
    now rewrite orb_true_r.
  - intros b. now destruct b.
Qed.

(** After validation the method has characters: [invoke] does not reach its
    first [throw]. *)
Lemma validated_method_key (request : value) :
  _validateRequest request = Normal VNull ->
  exists key, string_data (prop request "method") = Some key.
Proof.
  intros Hv. apply _validateRequest_null in Hv as (_ & _ & _ & Hs & _).
  destruct (prop request "method"); try discriminate Hs; eauto.
Qed.

(** *** The method table *)

(** Registration merges: the new entries win, the others stay. *)
Lemma registerMethods_lookup (this : TinyJsonRpcServer)
  (methodObj : gmap string Method) (key : string) :
  _methods (registerMethods this methodObj) !! key =
  match methodObj !! key with
  | Some f => Some f
  | None => _methods this !! key
  end.
Proof.
  unfold registerMethods. cbn [_methods]. rewrite lookup_union.
  destruct (methodObj !! key), (_methods this !! key); reflexivity.
Qed.

Lemma registerMethods_keeps_callback (this : TinyJsonRpcServer)
  (methodObj : gmap string Method) :
  getMethodCallback (registerMethods this methodObj) = getMethodCallback this.
Proof. reflexivity. Qed.

(** A registered handler is found under its name, whatever plain objects
    inherit under that name. *)
Lemma methods_get_registered (this : TinyJsonRpcServer) (key : string) (f : Method) :
  _methods this !! key = Some f ->
  methods_get this key = Some (call_method key f).
Proof. intros H. unfold methods_get. now rewrite H. Qed.

(** *** The executor, step by step *)

(** The two [catch] callbacks, run on a rejection. *)
Lemma catch_chain (fr : frame) (e : value) :
  bind (catch_ (Rejected e) on_error)
    (fun p => catch_ p on_critical_error) fr
  = (Normal (Fulfilled (error_outcome (requestId fr) e)), fr).
Proof.
  assert (Hcritical : forall e0,
    catch_ (Rejected e0) on_critical_error fr
    = (Normal (Fulfilled
                 (internal_error_response (requestId fr)
                    "A critical error occurred when handling request")), fr)).
  { intros e0. unfold catch_, settle, on_critical_error, bind, console_error,
      ret, get_requestId, pure.
    now rewrite internal_error_response_eq by discriminate. }
  unfold bind at 1, catch_ at 1, settle, on_error, error_outcome.
  thrown e errorObj; cbn [instanceof_JsonRpcRequestException];
    try (unfold bind, console_error, ret, get_requestId, pure;
         rewrite internal_error_response_eq by discriminate;
         reflexivity).
  cbn [prop lookup_prop String.eqb Ascii.eqb Bool.eqb].
  unfold bind at 1, get_requestId. unfold bind at 1.
  cbn [get_prop ret prop lookup_prop String.eqb Ascii.eqb Bool.eqb].
  destruct errorObj;
    try (cbn [get_prop bind throw]; apply Hcritical);
    (cbn [get_prop bind ret pure prop lookup_prop String.eqb Ascii.eqb Bool.eqb];
     match goal with
     | |- context [createErrorResponse ?i ?c ?m ?d] =>
         destruct (createErrorResponse i c m d) as [response|e0] eqn:E;
           cbv beta iota;
           [apply createErrorResponse_object in E as (_ & -> & _); reflexivity
           | apply Hcritical]
     end).
Qed.

Lemma _handleJsonRpcRequest_run (this : TinyJsonRpcServer)
  (request requestContext : value) (s : state) :
  _handleJsonRpcRequest this request requestContext s =
  match _validateRequest request with
  | Throw e => (Normal (Fulfilled (error_outcome VNull e)), s)
  | Normal errorResponse =>
      if truthy errorResponse then (Normal (Fulfilled errorResponse), s)
      else
        match invoke this request requestContext s with
        | (Throw e, s') =>
            (Normal (Fulfilled (error_outcome (resolved_id request) e)), s')
        | (Normal None, s') =>
            (Normal (Fulfilled (not_found_response request)), s')
        | (Normal (Some result), s') =>
            match Promise_resolve result with
            | Fulfilled v =>
                (Normal (Fulfilled
                           (if has_prop request "id"
                            then createResultResponse v (resolved_id request)
                            else VNull)), s')
            | Rejected e =>
                (Normal (Fulfilled (error_outcome (resolved_id request) e)), s')
            | Pending => (Normal Pending, s')
            end
        end
  end.
Proof.
  unfold _handleJsonRpcRequest.
  unfold bind at 1, then_, settle, on_start. unfold bind at 1, pure.
  destruct (_validateRequest request) as [errorResponse|e] eqn:Hv.
  2: { rewrite (catch_chain _ e). reflexivity. }
  destruct (truthy errorResponse) eqn:Ht.
  { assert (Hn : errorResponse <> VNull) by (intros ->; discriminate Ht).
    destruct (_validateRequest_truthy _ _ Hv Hn) as (_ & Hr & _).
    cbv beta iota delta [ret]. rewrite Hr. reflexivity. }
  unfold resolved_id.
  unfold bind, lift, set_hasRequestId, set_requestId,
    get_hasRequestId, get_requestId, ret. cbn [st hasRequestId requestId].
  destruct (invoke this request requestContext s) as [[[result|]|e] s'].
  - destruct (Promise_resolve result) as [v|e|] eqn:Hr;
      cbn [then_ settle ret Promise_resolve].
    + destruct (has_prop request "id"); reflexivity.
    + pose proof (catch_chain
                    {| st := s'; hasRequestId := has_prop request "id";
                       requestId := if has_prop request "id"
                                    then prop request "id" else VNull |} e) as Hc.
      unfold bind in Hc. cbn [requestId] in Hc.
      cbn [catch_] in *.
      destruct (settle (on_error e) _) as [[p|e0] fr] eqn:Hs;
        [|unfold settle in Hs; destruct (on_error e _) as [[?|?] ?]; discriminate Hs].
      rewrite Hc. reflexivity.
    + reflexivity.
  - pose proof (not_found_response_eq request) as Hnf.
    unfold resolved_id in Hnf. cbn [requestId]. rewrite Hnf. reflexivity.
  - pose proof (catch_chain
                  {| st := s'; hasRequestId := has_prop request "id";
                     requestId := if has_prop request "id"
                                  then prop request "id" else VNull |} e) as Hc.
    unfold bind in Hc. cbn [requestId] in Hc.
    cbn [catch_] in *.
    destruct (settle (on_error e) _) as [[p|e0] fr] eqn:Hs;
      [|unfold settle in Hs; destruct (on_error e _) as [[?|?] ?]; discriminate Hs].
    rewrite Hc. reflexivity.
Qed.

Lemma successful_run (this : TinyJsonRpcServer)
  (request requestContext : value) (s : state) (v : value) (s' : state) :
  _validateRequest request = Normal VNull ->
  completes_with this request requestContext s v s' ->
  _handleJsonRpcRequest this request requestContext s =
  (Normal (Fulfilled (if has_prop request "id"
                      then createResultResponse v (resolved_id request)
                      else VNull)), s').
Proof.
  intros Hv (result & Hi & Hr).
  rewrite _handleJsonRpcRequest_run, Hv. cbn [truthy].
  now rewrite Hi, Hr.
Qed.

Lemma failed_run (this : TinyJsonRpcServer)
  (request requestContext : value) (s : state) (e : value) (s' : state) :
  _validateRequest request = Normal VNull ->
  fails_with this request requestContext s e s' ->
  _handleJsonRpcRequest this request requestContext s =
  (Normal (Fulfilled (error_outcome (resolved_id request) e)), s').
Proof.
  intros Hv Hf. rewrite _handleJsonRpcRequest_run, Hv. cbn [truthy].
  destruct Hf as [Hi | (result & Hi & Hr)]; rewrite Hi; [|rewrite Hr];
    reflexivity.
Qed.

(** A request that the validator does not accept is answered in the state
    the executor started from. *)
Lemma rejected_run (this : TinyJsonRpcServer)
  (request requestContext : value) (s : state) :
  _validateRequest request <> Normal VNull ->
  _handleJsonRpcRequest this request requestContext s =
  (Normal (Fulfilled (rejection request)), s).
Proof.
  intros Hv. rewrite _handleJsonRpcRequest_run. unfold rejection.
  destruct (_validateRequest request) as [refused|e] eqn:H; [|reflexivity].
  assert (Hn : refused <> VNull) by (intros ->; now destruct Hv).
  now destruct (_validateRequest_truthy _ _ H Hn) as (-> & _).
Qed.

Lemma rejection_is_response (request : value) :
  _validateRequest request <> Normal VNull -> is_response (rejection request).
Proof.
  intros Hv. unfold rejection.
  destruct (_validateRequest request) as [refused|e] eqn:H;
    [|apply error_outcome_is_response].
  assert (Hn : refused <> VNull) by (intros ->; now destruct Hv).
  now destruct (_validateRequest_truthy _ _ H Hn) as (_ & _ & Hr).
Qed.

Lemma executor_post_mono (evs0 evs evs1 : list event) (p : promise) :
  executor_post evs p -> executor_post (evs0 ++ evs ++ evs1)%list p.
Proof.
  destruct p; cbn; auto. intros H.
  apply Exists_app. right. apply Exists_app. now left.
Qed.

Lemma invoke_trace (this : TinyJsonRpcServer) (request requestContext : value)
  (s : state) (c : completion (option value)) (s' : state) :
  invoke this request requestContext s = (c, s') ->
  exists evs,
    trace s' = (trace s ++ evs)%list /\
    (forall result, c = Normal (Some result) ->
                    Promise_resolve result = Pending ->
                    Exists never_settles evs).
Proof.
  unfold invoke.
  destruct (string_data (prop request "method")) as [key|].
  2: { intros [= <- <-]. exists []. rewrite app_nil_r. split; [easy|discriminate]. }
  unfold methods_get.
  destruct (_methods this !! key) as [f|].
  - unfold bind, call_method, ret.
    destruct (f _ _ (world s)) as [[r|e] w] eqn:Hf; intros [= <- <-];
      eexists; (split; [reflexivity|]); [|discriminate].
    intros result [= <-] Hp. constructor. now exists r.
  - destruct (inherited key Object_prototype) as [f|].
    + cbv beta iota delta [bind call_inherited ret].
      destruct (f (prop request "params")) as [r|e] eqn:Hf; intros [= <- <-];
        eexists; (split; [reflexivity|]); [|discriminate].
      intros result [= <-] Hp. constructor. now exists r.
    + destruct (_methodCallback this) as [cb|].
      * cbv beta iota delta [bind call_callback ret].
        destruct (cb _ _ _ (world s)) as [[r|e] w] eqn:Hf.
        -- destruct (is_undefined r) eqn:Hu; intros [= <- <-];
             eexists; (split; [reflexivity|]); [discriminate|].
           intros result [= <-] Hp. constructor. now exists r.
        -- intros [= <- <-]. eexists. split; [reflexivity|discriminate].
      * unfold bind, ret. cbn. intros [= <- <-].
        exists []. rewrite app_nil_r. split; [easy|discriminate].
Qed.

Lemma _handleJsonRpcRequest_post (this : TinyJsonRpcServer)
  (request requestContext : value) (s : state) :
  exists p s' evs,
    _handleJsonRpcRequest this request requestContext s = (Normal p, s') /\
    trace s' = (trace s ++ evs)%list /\
    executor_post evs p.
Proof.
  destruct (_validateRequest_cases request) as [Hv | Hrej].
  2: { rewrite rejected_run
         by (destruct Hrej as [(? & ? & H & _) | (? & H & _)];
             rewrite H; discriminate).
       eexists _, _, []. rewrite app_nil_r. repeat split.
       right. apply rejection_is_response.
       destruct Hrej as [(? & ? & H & _) | (? & H & _)]; rewrite H; discriminate. }
  rewrite _handleJsonRpcRequest_run, Hv. cbn [truthy].
  destruct (invoke this request requestContext s) as [c s'] eqn:Hi.
  destruct (invoke_trace _ _ _ _ _ _ Hi) as (evs & Ht & Hp).
  destruct c as [[result|]|e].
  - destruct (Promise_resolve result) eqn:Hr; eexists _, _, evs;
      (split; [reflexivity|]); (split; [exact Ht|]); cbn.
    + destruct (has_prop request "id"); [right|left]; auto with responses.
    + right. auto with responses.
    + now apply (Hp result).
  - eexists _, _, evs. repeat split; [exact Ht|]. right. auto with responses.
  - eexists _, _, evs. repeat split; [exact Ht|]. right. auto with responses.
Qed.

(** A call that never settles is the call that [invoke] made, and [invoke]
    handed its promise on. *)
Lemma invoke_never_settles (this : TinyJsonRpcServer) (request requestContext : value)
  (s : state) (c : completion (option value)) (s' : state) (evs : list event) :
  invoke this request requestContext s = (c, s') ->
  trace s' = (trace s ++ evs)%list ->
  Exists never_settles evs ->
  exists result, c = Normal (Some result) /\ Promise_resolve result = Pending.
Proof.
  assert (Hnil : forall t : list event, t = (t ++ evs)%list -> Exists never_settles evs -> False).
  { intros t Ht Hex. rewrite <- (app_nil_r t) in Ht at 1.
    apply app_inv_head in Ht. subst evs. inversion Hex. }
  assert (Hone : forall (t : list event) ev,
             (t ++ [ev])%list = (t ++ evs)%list -> Exists never_settles evs ->
             never_settles ev).
  { intros t ev Ht Hex. apply app_inv_head in Ht. subst evs.
    inversion Hex as [? ? H|? ? H]; [exact H | inversion H]. }
  unfold invoke.
  destruct (string_data (prop request "method")) as [key|].
  2: { intros [= <- <-] Ht Hex. destruct (Hnil _ Ht Hex). }
  unfold methods_get.
  destruct (_methods this !! key) as [f|].
  - unfold bind, call_method, ret.
    destruct (f _ _ (world s)) as [[r|e] w]; intros [= <- <-] Ht Hex;
      apply Hone in Ht; auto; destruct Ht as (result & Ho & Hp);
      cbn in Ho; [|discriminate Ho].
    injection Ho as ->. now eexists.
  - destruct (inherited key Object_prototype) as [f|].
    + cbv beta iota delta [bind call_inherited ret].
      destruct (f (prop request "params")) as [r|e]; intros [= <- <-] Ht Hex;
        apply Hone in Ht; auto; destruct Ht as (result & Ho & Hp);
        cbn in Ho; [|discriminate Ho].
      injection Ho as ->. now eexists.
    + destruct (_methodCallback this) as [cb|].
      * cbv beta iota delta [bind call_callback ret].
        destruct (cb _ _ _ (world s)) as [[r|e] w].
        -- destruct (is_undefined r) eqn:Hu; intros [= <- <-] Ht Hex;
             apply Hone in Ht; auto; destruct Ht as (result & Ho & Hp);
             cbn in Ho; injection Ho as ->.
           ++ destruct result; try discriminate Hu. discriminate Hp.
           ++ now eexists.
        -- intros [= <- <-] Ht Hex. apply Hone in Ht; auto.
           destruct Ht as (result & Ho & _). discriminate Ho.
      * unfold bind, ret. cbn. intros [= <- <-] Ht Hex. destruct (Hnil _ Ht Hex).
Qed.

(** The executor stays pending whenever the call it made never settles. *)
Lemma _handleJsonRpcRequest_pending (this : TinyJsonRpcServer)
  (request requestContext : value) (s : state) (p : promise) (s' : state)
  (evs : list event) :
  _handleJsonRpcRequest this request requestContext s = (Normal p, s') ->
  trace s' = (trace s ++ evs)%list ->
  Exists never_settles evs ->
  p = Pending.
Proof.
  assert (Hnil : forall t : list event,
             t = (t ++ evs)%list -> Exists never_settles evs -> False).
  { intros t Ht Hex. rewrite <- (app_nil_r t) in Ht at 1.
    apply app_inv_head in Ht. subst evs. inversion Hex. }
  rewrite _handleJsonRpcRequest_run.
  destruct (_validateRequest request) as [errorResponse|e0].
  2: { intros [= <- <-] Ht Hex. destruct (Hnil _ Ht Hex). }
  destruct (truthy errorResponse).
  { intros [= <- <-] Ht Hex. destruct (Hnil _ Ht Hex). }
  destruct (invoke this request requestContext s) as [c s1] eqn:Hi.
  intros Hrun Ht Hex.
  assert (s1 = s') as ->.
  { destruct c as [[result|]|e]; [destruct (Promise_resolve result)|..];
      now injection Hrun. }
  destruct (invoke_never_settles _ _ _ _ _ _ _ Hi Ht Hex) as (result & -> & Hr).
  rewrite Hr in Hrun. now injection Hrun.
Qed.

(** For ordinary method names the lookup is the one of the method table:
    a registered handler is called with the params and the context and the
    callback is left alone; without one the callback is called with the
    method, the params and the context; and [undefined] from the callback,
    or no callback, is method-not-found. *)
Lemma invoke_ordinary (this : TinyJsonRpcServer) (request requestContext : value)
  (key : string) (s : state) :
  string_data (prop request "method") = Some key ->
  ordinary key ->
  invoke this request requestContext s =
  match _methods this !! key with
  | Some f =>
      let '(r, w) := f (prop request "params") requestContext (world s) in
      (match r with Normal result => Normal (Some result) | Throw e => Throw e end,
       {| world := w;
          trace := trace s ++ [Called_method key (prop request "params")
                                 requestContext r] |})
  | None =>
      match _methodCallback this with
      | Some methodCallback =>
          let '(r, w) := methodCallback (prop request "method")
                           (prop request "params") requestContext (world s) in
          (match r with
           | Normal VUndefined => Normal None
           | Normal result => Normal (Some result)
           | Throw e => Throw e
           end,
           {| world := w;
              trace := trace s ++ [Called_callback (prop request "method")
                                     (prop request "params") requestContext r] |})
      | None => (Normal None, s)
      end
  end.
Proof.
  intros Hk Ho. unfold invoke, methods_get. rewrite Hk, Ho.
  destruct (_methods this !! key) as [f|].
  - unfold bind, call_method, ret.
    destruct (f _ _ (world s)) as [[r|e] w]; reflexivity.
  - destruct (_methodCallback this) as [cb|]; [|reflexivity].
    unfold bind, call_callback, ret.
    destruct (cb _ _ _ (world s)) as [[r|e] w]; [|reflexivity].
    destruct r; reflexivity.
Qed.

(** A call adds at most one event to the trace. *)
Lemma invoke_calls (this : TinyJsonRpcServer) (request requestContext : value)
  (s : state) :
  exists evs,
    trace (snd (invoke this request requestContext s)) = (trace s ++ evs)%list /\
    List.length evs <= 1.
Proof.
  unfold invoke.
  destruct (string_data (prop request "method")) as [key|].
  2: { exists []. rewrite app_nil_r. split; [reflexivity | cbn; lia]. }
  unfold methods_get.
  destruct (_methods this !! key) as [f|].
  - unfold bind, call_method, ret.
    destruct (f _ _ (world s)) as [[r|e] w]; eexists; split;
      try reflexivity; cbn; lia.
  - destruct (inherited key Object_prototype) as [f|].
    + cbv beta iota delta [bind call_inherited ret].
      destruct (f (prop request "params")) as [r|e]; eexists; split;
        try reflexivity; cbn; lia.
    + destruct (_methodCallback this) as [cb|].
      * cbv beta iota delta [bind call_callback ret].
        destruct (cb _ _ _ (world s)) as [[r|e] w].
        -- destruct (is_undefined r); eexists; split; try reflexivity; cbn; lia.
        -- eexists; split; try reflexivity; cbn; lia.
      * exists []. rewrite app_nil_r. split; [reflexivity | cbn; lia].
Qed.

Lemma _handleJsonRpcRequest_state (this : TinyJsonRpcServer)
  (request requestContext : value) (s : state) :
  snd (_handleJsonRpcRequest this request requestContext s) =
  match _validateRequest request with
  | Normal VNull => snd (invoke this request requestContext s)
  | _ => s
  end.
Proof.
  destruct (_validateRequest_cases request) as [Hv | Hrej].
  - rewrite _handleJsonRpcRequest_run, Hv. cbn [truthy].
    destruct (invoke this request requestContext s) as [[[result|]|e] s'];
      [destruct (Promise_resolve result)|..]; reflexivity.
  - rewrite rejected_run
      by (destruct Hrej as [(? & ? & H & _) | (? & H & _)];
          rewrite H; discriminate).
    destruct Hrej as [(? & ? & H & _) | (? & H & _)]; now rewrite H.
Qed.

Lemma _handleJsonRpcRequest_calls (this : TinyJsonRpcServer)
  (request requestContext : value) (s : state) :
  exists evs,
    trace (snd (_handleJsonRpcRequest this request requestContext s))
    = (trace s ++ evs)%list /\
    List.length evs <= 1.
Proof.
  rewrite _handleJsonRpcRequest_state.
  assert (Hnone : exists evs, trace s = (trace s ++ evs)%list /\ List.length evs <= 1).
  { exists []. rewrite app_nil_r. split; [reflexivity | cbn; lia]. }
  destruct (_validateRequest request) as [[]|]; try exact Hnone.
  apply invoke_calls.
Qed.

(** *** Batches and the entry point, step by step *)

Lemma mapM_run_each (this : TinyJsonRpcServer) (requests : list value)
  (requestContext : value) (s : state) :
  mapM (fun request => _handleJsonRpcRequest this request requestContext)
    requests s =
  (Normal (fst (run_each this requests requestContext s)),
   snd (run_each this requests requestContext s)).
Proof.
  revert s. induction requests as [|request rest IH]; intros s; [reflexivity|].
  cbn [mapM run_each]. unfold bind at 1.
  destruct (_handleJsonRpcRequest_post this request requestContext s)
    as (p & s1 & evs & -> & _ & _).
  unfold bind at 1. rewrite IH.
  destruct (run_each this rest requestContext s1). reflexivity.
Qed.

Lemma run_each_post (this : TinyJsonRpcServer) (requests : list value)
  (requestContext : value) (s : state) :
  exists evs,
    trace (snd (run_each this requests requestContext s)) = (trace s ++ evs)%list /\
    Forall (executor_post evs) (fst (run_each this requests requestContext s)).
Proof.
  revert s. induction requests as [|request rest IH]; intros s.
  { exists []. rewrite app_nil_r. now split. }
  cbn [run_each].
  destruct (_handleJsonRpcRequest_post this request requestContext s)
    as (p & s1 & evs & -> & Ht & Hp).
  destruct (IH s1) as (evs' & Ht' & Hps).
  destruct (run_each this rest requestContext s1) as [ps s2].
  cbn [fst snd promise_of] in *.
  exists (evs ++ evs')%list. split.
  - now rewrite Ht', Ht, app_assoc.
  - constructor.
    + apply (executor_post_mono [] evs evs'), Hp.
    + eapply Forall_impl; [exact Hps|]. intros q Hq.
      rewrite <- (app_nil_r evs'). apply (executor_post_mono evs evs' []), Hq.
Qed.

(** A batch in which a call never settles has an entry that stays pending. *)
Lemma run_each_pending (this : TinyJsonRpcServer) (requests : list value)
  (requestContext : value) (s : state) (evs : list event) :
  trace (snd (run_each this requests requestContext s)) = (trace s ++ evs)%list ->
  Exists never_settles evs ->
  fulfilled_values (fst (run_each this requests requestContext s)) = None.
Proof.
  revert s evs. induction requests as [|request rest IH]; intros s evs.
  { cbn. intros Ht Hex. rewrite <- (app_nil_r (trace s)) in Ht at 1.
    apply app_inv_head in Ht. subst evs. inversion Hex. }
  cbn [run_each].
  destruct (_handleJsonRpcRequest_post this request requestContext s)
    as (p & s1 & evs1 & Hrun & Ht1 & _).
  rewrite Hrun.
  destruct (run_each_post this rest requestContext s1) as (evs2 & Ht2 & _).
  specialize (IH s1 evs2 Ht2).
  destruct (run_each this rest requestContext s1) as [ps s2].
  cbn [fst snd promise_of] in *.
  intros Ht Hex. rewrite Ht2, Ht1, <- app_assoc in Ht.
  apply app_inv_head in Ht. subst evs.
  apply Exists_app in Hex as [Hex|Hex].
  - now rewrite (_handleJsonRpcRequest_pending _ _ _ _ _ _ _ Hrun Ht1 Hex).
  - cbn. rewrite (IH Hex). now destruct p.
Qed.

Lemma executor_post_no_rejection (evs : list event) (ps : list promise) :
  Forall (executor_post evs) ps -> first_rejection ps = None.
Proof.
  induction 1 as [|p ps Hp _ IH]; [reflexivity|].
  destruct p; cbn in *; auto. contradiction.
Qed.

Lemma fulfilled_values_map (ps : list promise) (vs : list value) :
  fulfilled_values ps = Some vs <-> ps = map Fulfilled vs.
Proof.
  revert vs. induction ps as [|p ps IH]; intros vs; cbn.
  - split; [intros [= <-]; reflexivity | destruct vs; [reflexivity|discriminate]].
  - destruct p as [v| |]; try (split; [discriminate | destruct vs; discriminate]).
    destruct (fulfilled_values ps) as [vs'|].
    + split.
      * intros [= <-]. cbn. f_equal. now apply IH.
      * destruct vs as [|v0 vs0]; [discriminate|]. intros [= -> H].
        apply IH in H. now injection H as ->.
    + split; [discriminate|].
      destruct vs as [|v0 vs0]; [discriminate|]. intros [= -> H].
      apply IH in H. discriminate.
Qed.

(** The batch handler in one step. *)
Lemma _handleJsonRpcBatchRequest_run (this : TinyJsonRpcServer)
  (requests : list value) (requestContext : value) (s : state) :
  _handleJsonRpcBatchRequest this requests requestContext s =
  (Normal
     (match fulfilled_values
              (fst (run_each this requests (default_context requestContext) s)) with
      | Some responses =>
          Fulfilled (if Nat.eqb (List.length (remove_null responses)) 0
                     then VNull
                     else VArray (remove_null responses))
      | None => Pending
      end),
   snd (run_each this requests (default_context requestContext) s)).
Proof.
  unfold _handleJsonRpcBatchRequest. unfold bind at 1.
  rewrite mapM_run_each.
  destruct (run_each_post this requests (default_context requestContext) s)
    as (evs & _ & Hps).
  destruct (run_each this requests (default_context requestContext) s) as [ps s'].
  cbn [fst snd] in *.
  unfold Promise_all. rewrite (executor_post_no_rejection _ _ Hps).
  destruct (fulfilled_values ps) as [responses|]; [|reflexivity].
  cbn. unfold bind, then_, settle, ret, catch_. cbn.
  destruct (Nat.eqb (List.length (remove_null responses)) 0); reflexivity.
Qed.

Lemma run_each_app (this : TinyJsonRpcServer) (first second : list value)
  (requestContext : value) (s : state) :
  run_each this (first ++ second) requestContext s =
  (fst (run_each this first requestContext s)
   ++ fst (run_each this second requestContext
             (snd (run_each this first requestContext s))),
   snd (run_each this second requestContext
          (snd (run_each this first requestContext s))))%list.
Proof.
  revert s. induction first as [|request rest IH]; intros s.
  { cbn. now destruct (run_each this second requestContext s). }
  cbn [app run_each].
  destruct (_handleJsonRpcRequest this request requestContext s) as [c s1].
  rewrite IH.
  destruct (run_each this rest requestContext s1) as [ps s2]. reflexivity.
Qed.

Lemma all_succeed_run (this : TinyJsonRpcServer) (requests : list value)
  (requestContext : value) (s : state) (vs : list value) (s' : state) :
  all_succeed this requests requestContext s vs s' ->
  run_each this requests requestContext s =
  (map Fulfilled
     (map (fun '(request, v) =>
             if has_prop request "id"
             then createResultResponse v (resolved_id request)
             else VNull)
        (combine requests vs)), s') /\
  List.length vs = List.length requests.
Proof.
  revert s vs. induction requests as [|request rest IH]; intros s vs.
  { destruct vs; [|contradiction]. intros ->. now split. }
  destruct vs as [|v vs]; [contradiction|].
  cbn [all_succeed run_each].
  intros (Hv & s1 & Hc & Hrest).
  rewrite (successful_run _ _ _ _ _ _ Hv Hc).
  destruct (IH s1 vs Hrest) as (-> & Hlen).
  cbn. now rewrite Hlen.
Qed.

Lemma result_responses_remove_null (requests vs : list value) :
  remove_null
    (map (fun '(request, v) =>
            if has_prop request "id"
            then createResultResponse v (resolved_id request)
            else VNull)
       (combine requests vs))
  = result_responses requests vs.
Proof.
  revert vs. induction requests as [|request rest IH]; intros vs; [reflexivity|].
  destruct vs as [|v vs]; [reflexivity|].
  cbn [combine map result_responses]. unfold remove_null in *.
  cbn [List.filter]. unfold resolved_id.
  destruct (has_prop request "id");
    cbn [createResultResponse is_null negb]; now rewrite IH.
Qed.

Lemma result_responses_length (requests vs : list value) :
  List.length vs = List.length requests ->
  List.length (result_responses requests vs)
  + List.length (List.filter is_notification requests)
  = List.length requests.
Proof.
  revert vs. induction requests as [|request rest IH]; intros vs Hlen;
    [now destruct vs|].
  destruct vs as [|v vs]; [discriminate Hlen|].
  injection Hlen as Hlen. specialize (IH vs Hlen).
  cbn [result_responses List.filter]. unfold is_notification at 1.
  destruct (has_prop request "id"); cbn [negb List.length]; lia.
Qed.

Lemma default_context_idempotent (requestContext : value) :
  default_context (default_context requestContext) = default_context requestContext.
Proof. now destruct requestContext. Qed.

Lemma catch_not_rejected {S : Type} (p : promise) (h : value -> M S value) (s : S) :
  (forall e, p <> Rejected e) -> catch_ p h s = (Normal p, s).
Proof. destruct p as [v|e|]; intros H; try reflexivity. now destruct (H e). Qed.

Lemma is_response_missing_requests : is_response missing_requests_response.
Proof.
  apply (is_response_error VNull INVALID_REQUEST
           (VString "Invalid request, missing request object(s)") VUndefined).
  reflexivity.
Qed.

Lemma route_post (this : TinyJsonRpcServer) (request requestContext : value)
  (s : state) :
  exists p s' evs,
    route this request requestContext s = (Normal p, s') /\
    trace s' = (trace s ++ evs)%list /\
    match p with
    | Fulfilled v => is_outcome v
    | Rejected _ => False
    | Pending => Exists never_settles evs
    end.
Proof.
  assert (Hsingle : forall r,
    exists p s' evs,
      _handleJsonRpcRequest this r (default_context requestContext) s
      = (Normal p, s') /\
      trace s' = (trace s ++ evs)%list /\
      match p with
      | Fulfilled v => is_outcome v
      | Rejected _ => False
      | Pending => Exists never_settles evs
      end).
  { intros r.
    destruct (_handleJsonRpcRequest_post this r (default_context requestContext) s)
      as (p & s' & evs & Hrun & Ht & Hp).
    exists p, s', evs. repeat split; auto.
    destruct p; cbn in Hp; auto. destruct Hp; [now left | right; now left]. }
  destruct request as [| | | | | |requests| | | | | | |]; try apply Hsingle.
  destruct requests as [|request rest].
  { eexists _, _, []. rewrite app_nil_r. repeat split.
    right; left. apply is_response_missing_requests. }
  unfold route. rewrite _handleJsonRpcBatchRequest_run, default_context_idempotent.
  destruct (run_each_post this (request :: rest) (default_context requestContext) s)
    as (evs & Ht & Hps).
  destruct (run_each this (request :: rest) (default_context requestContext) s)
    as [ps s'].
  cbn [fst snd] in *.
  destruct (fulfilled_values ps) as [responses|] eqn:Hf;
    eexists _, _, evs; (split; [reflexivity|]); (split; [exact Ht|]).
  - apply fulfilled_values_map in Hf. subst ps.
    assert (Hall : Forall is_response (remove_null responses)).
    { clear Ht. induction responses as [|v vs IH]; [constructor|].
      inversion Hps as [|? ? Hv Hvs]; subst. unfold remove_null. cbn [List.filter].
      destruct v; cbn [is_null negb]; try (now apply IH);
        (constructor; [|now apply IH]); cbn in Hv;
        (destruct Hv as [Hv|Hv]; [discriminate Hv|exact Hv]). }
    destruct (remove_null responses) as [|v vs] eqn:Hr; [now left|].
    right; right. exists (v :: vs). cbn. repeat split; [discriminate|exact Hall].
  - clear Ht. induction Hps as [|q qs Hq _ IH]; [discriminate Hf|].
    cbn in Hf. destruct q; cbn in Hq; [|contradiction|exact Hq].
    apply IH. now destruct (fulfilled_values qs).
Qed.

Lemma route_pending (this : TinyJsonRpcServer) (request requestContext : value)
  (s : state) (p : promise) (s' : state) (evs : list event) :
  route this request requestContext s = (Normal p, s') ->
  trace s' = (trace s ++ evs)%list ->
  Exists never_settles evs ->
  p = Pending.
Proof.
  destruct request as [| | | | | |requests| | | | | | |];
    try apply _handleJsonRpcRequest_pending.
  destruct requests as [|request rest].
  { intros [= <- <-] Ht Hex. rewrite <- (app_nil_r (trace s)) in Ht at 1.
    apply app_inv_head in Ht. subst evs. inversion Hex. }
  unfold route. rewrite _handleJsonRpcBatchRequest_run, default_context_idempotent.
  pose proof (run_each_pending this (request :: rest)
                (default_context requestContext) s evs) as Hpend.
  destruct (run_each this (request :: rest) (default_context requestContext) s)
    as [ps s2].
  cbn [fst snd] in *.
  intros [= <- <-] Ht Hex. now rewrite (Hpend Ht Hex).
Qed.

(** The entry point in one step: parse a string, then route. *)
Lemma handleJsonRpcRequest_run (this : TinyJsonRpcServer)
  (request requestContext : value) (s : state) :
  handleJsonRpcRequest this request requestContext s =
  match (if isString request then string_data request else None) with
  | Some text =>
      match JSON_parse text with
      | Some v => route this v requestContext s
      | None => (Normal (Fulfilled parse_error_response), s)
      end
  | None => route this request requestContext s
  end.
Proof.
  assert (Hroute : forall r,
    bind (settle
            (match r with
             | VArray requests =>
                 if Nat.eqb (List.length requests) 0 then
                   pure (createErrorResponse VNull INVALID_REQUEST
                           (VString "Invalid request, missing request object(s)")
                           VUndefined)
                 else
                   let* p := _handleJsonRpcBatchRequest this requests
                               (default_context requestContext) in
                   ret (VPromise p)
             | _ =>
                 let* p := _handleJsonRpcRequest this r
                             (default_context requestContext) in
                 ret (VPromise p)
             end))
         (fun p =>
            catch_ p
              (fun e =>
                 console_error e ;;
                 pure (createErrorResponse VNull INTERNAL_ERROR
                         (VString "An error occurred when processing request") e))) s
    = route this r requestContext s).
  { intros r.
    destruct (route_post this r requestContext s) as (p & s' & evs & Hrun & _ & Hp).
    rewrite Hrun.
    assert (Hnr : forall e, p <> Rejected e) by (intros e ->; exact Hp).
    unfold route in Hrun.
    destruct r as [| | | | | |requests| | | | | | |];
      try (unfold bind at 1, settle, bind at 1; rewrite Hrun;
           cbn [ret Promise_resolve]; now apply catch_not_rejected).
    destruct requests as [|r0 rest].
    - injection Hrun as <- <-. reflexivity.
    - unfold bind at 1, settle. cbn [List.length Nat.eqb].
      unfold bind at 1. rewrite Hrun.
      cbn [ret Promise_resolve]. now apply catch_not_rejected. }
  unfold handleJsonRpcRequest.
  destruct (if isString request then string_data request else None) as [text|].
  - destruct (JSON_parse text) as [v|]; [exact (Hroute v) | reflexivity].
  - exact (Hroute request).
Qed.

(** *** The two constructors of the exception *)

Lemma createErrorObject_primitive (code message data : value) :
  is_object code = false ->
  exists errorObj, createErrorObject code message data = Normal errorObj.
Proof.
  intros H. rewrite createErrorObject_shape, (isNumeric_primitive _ H).
  now eexists.
Qed.




(** A plain object without members of its own named [valueOf] or [toString]
    is not numeric. *)
Lemma isNumeric_plain_object (props : list (string * value)) :
  own_member props "valueOf" = Absent ->
  own_member props "toString" = Absent ->
  isNumeric (VObject props) = Normal false.
Proof.
  intros Hv Ht. rewrite isNumeric_eq. unfold ToNumber. cbn [to_number].
  now rewrite Hv, Ht.
Qed.



(** *** Faults *)

Lemma error_outcome_eq (id e : value) :
  error_outcome id e =
  VObject [("jsonrpc", VString "2.0");
           ("error", error_member e);
           ("id", match id with VUndefined => VNull | _ => id end)].
Proof.
  unfold error_outcome, error_member, internal_error_response.
  destruct (instanceof_JsonRpcRequestException e); [|reflexivity].
  destruct (prop e "errorObj"); try reflexivity;
    unfold createErrorResponse;
    match goal with
    | |- context [createErrorObject ?c ?m ?d] =>
        destruct (createErrorObject c m d); reflexivity
    end.
Qed.

Lemma fault_id_defined (this : TinyJsonRpcServer)
  (request requestContext : value) (s : state) (e : value) :
  unexpected_fault this request requestContext s e ->
  fault_id request <> VUndefined.
Proof.
  unfold fault_id. intros (_ & [Hv | (Hv & _)]); rewrite Hv; [discriminate|].
  now apply resolved_id_defined.
Qed.

(** An unexpected fault is answered with the response of the first
    [catch]. *)
Lemma fault_run (this : TinyJsonRpcServer)
  (request requestContext : value) (s : state) (e : value) :
  unexpected_fault this request requestContext s e ->
  fst (_handleJsonRpcRequest this request requestContext s) =
  Normal
    (Fulfilled
       (VObject [("jsonrpc", VString "2.0");
                 ("error",
                  VObject [("code", VNumber (num_of_Z (-32603)));
                           ("message",
                            VString "An error occurred when handling request")]);
                 ("id", fault_id request)])).
Proof.
  intros Hf. pose proof (fault_id_defined _ _ _ _ _ Hf) as Hid.
  destruct Hf as (He & [Hv | (Hv & s' & Hf)]); unfold fault_id in *.
  - rewrite _handleJsonRpcRequest_run, Hv. cbn [fst].
    rewrite error_outcome_eq. unfold error_member. now rewrite He.
  - rewrite (failed_run _ _ _ _ _ _ Hv Hf). cbn [fst].
    rewrite Hv in Hid. rewrite error_outcome_eq, Hv, (defined_id _ Hid).
    unfold error_member. now rewrite He.
Qed.

Lemma denotes_text (request : value) (text : string) (parsed v : value) :
  (if isString request then string_data request else None) = Some text ->
  JSON_parse text = Some v ->
  denotes request parsed -> parsed = v.
Proof. unfold denotes. intros -> Hp H. congruence. Qed.

Lemma denotes_value (request parsed : value) :
  (if isString request then string_data request else None) = None ->
  denotes request parsed -> parsed = request.
Proof. unfold denotes. now intros ->. Qed.

(** ** The claims *)

(** C1, amended.  Whatever the request, the handlers and the callback do, the
    promise of the entry point is never rejected.  When it resolves, it
    resolves to [null], to a response or to a non-empty array of responses,
    and it resolves exactly when none of the calls that the server made
    returned a promise, or a thenable, that never settles; otherwise it stays
    pending.  An unexpected fault, in the validator or in the call made for
    a valid request, shows as a response with the error code INTERNAL_ERROR:
    it is the answer when the request, given as a value or as text, is a
    single one, and it is in the array of the answer when the request is an
    entry of a batch. *)
Theorem handleJsonRpcRequest_never_rejects (this : TinyJsonRpcServer)
  (request requestContext : value) (s : state) :
  exists p s' evs,
    handleJsonRpcRequest this request requestContext s = (Normal p, s') /\
    trace s' = (trace s ++ evs)%list /\
    match p with
    | Fulfilled v => is_outcome v /\ ~ Exists never_settles evs
    | Rejected _ => False
    | Pending => Exists never_settles evs
    end /\
    (forall parsed e,
        denotes request parsed ->
        Array_isArray parsed = false ->
        unexpected_fault this parsed (default_context requestContext) s e ->
        p = Fulfilled
              (VObject [("jsonrpc", VString "2.0");
                        ("error",
                         VObject [("code", VNumber (num_of_Z (-32603)));
                                  ("message",
                                   VString "An error occurred when handling request")]);
                        ("id", fault_id parsed)])) /\
    (forall before entry after e,
        denotes request (VArray (before ++ entry :: after)) ->
        unexpected_fault this entry (default_context requestContext)
          (snd (run_each this before (default_context requestContext) s)) e ->
        forall v,
          p = Fulfilled v ->
          exists l,
            v = VArray l /\
            In (VObject [("jsonrpc", VString "2.0");
                         ("error",
                          VObject [("code", VNumber (num_of_Z (-32603)));
                                   ("message",
                                    VString "An error occurred when handling request")]);
                         ("id", fault_id entry)]) l).
Proof.
  rewrite handleJsonRpcRequest_run.
  assert (Hr : forall r,
    exists p s' evs,
      route this r requestContext s = (Normal p, s') /\
      trace s' = (trace s ++ evs)%list /\
      match p with
      | Fulfilled v => is_outcome v /\ ~ Exists never_settles evs
      | Rejected _ => False
      | Pending => Exists never_settles evs
      end /\
      (forall e,
          Array_isArray r = false ->
          unexpected_fault this r (default_context requestContext) s e ->
          p = Fulfilled
                (VObject [("jsonrpc", VString "2.0");
                          ("error",
                           VObject [("code", VNumber (num_of_Z (-32603)));
                                    ("message",
                                     VString "An error occurred when handling request")]);
                          ("id", fault_id r)])) /\
      (forall before entry after e,
          r = VArray (before ++ entry :: after) ->
          unexpected_fault this entry (default_context requestContext)
            (snd (run_each this before (default_context requestContext) s)) e ->
          forall v,
            p = Fulfilled v ->
            exists l,
              v = VArray l /\
              In (VObject [("jsonrpc", VString "2.0");
                           ("error",
                            VObject [("code", VNumber (num_of_Z (-32603)));
                                     ("message",
                                      VString "An error occurred when handling request")]);
                           ("id", fault_id entry)]) l)).
  { intros r.
    destruct (route_post this r requestContext s) as (p & s' & evs & Hrun & Ht & Hp).
    exists p, s', evs.
    split; [exact Hrun|]. split; [exact Ht|]. split.
    { destruct p as [v|e|]; [|exact Hp|exact Hp].
      split; [exact Hp|]. intros Hex.
      discriminate (route_pending _ _ _ _ _ _ _ Hrun Ht Hex). }
    split.
    - intros e Ha Hf.
      assert (Hrun' : _handleJsonRpcRequest this r (default_context requestContext) s
                      = (Normal p, s'))
        by (destruct r; try exact Hrun; discriminate Ha).
      pose proof (fault_run _ _ _ _ _ Hf) as Hfault.
      rewrite Hrun' in Hfault. now injection Hfault as ->.
    - intros before entry after e -> Hf v ->.
      pose proof (fault_run _ _ _ _ _ Hf) as Hfault.
      assert (Hbatch : _handleJsonRpcBatchRequest this (before ++ entry :: after)
                         (default_context requestContext) s
                       = (Normal (Fulfilled v), s'))
        by (unfold route in Hrun; clear Hf Hfault;
            destruct before; cbn [app] in *; exact Hrun).
      clear Hrun. revert Hbatch.
      rewrite _handleJsonRpcBatchRequest_run, default_context_idempotent,
        run_each_app.
      cbn [fst snd run_each].
      destruct (_handleJsonRpcRequest this entry (default_context requestContext)
                  (snd (run_each this before (default_context requestContext) s)))
        as [c s1].
      cbn [fst] in Hfault. subst c.
      destruct (run_each this after (default_context requestContext) s1)
        as [ps2 s2].
      cbn [fst snd promise_of].
      destruct (fulfilled_values _) as [responses|] eqn:Hfv; [|discriminate].
      apply fulfilled_values_map in Hfv.
      match goal with
      | |- context [In ?response _] =>
          assert (Hin : In response (remove_null responses))
      end.
      { unfold remove_null. apply filter_In. split; [|reflexivity].
        assert (Hin : In (Fulfilled
          (VObject [("jsonrpc", VString "2.0");
                    ("error",
                     VObject [("code", VNumber (num_of_Z (-32603)));
                              ("message",
                               VString "An error occurred when handling request")]);
                    ("id", fault_id entry)]))
          (map Fulfilled responses)).
        { rewrite <- Hfv. apply in_or_app. right. now left. }
        apply in_map_iff in Hin as (x & [= ->] & Hx). exact Hx. }
      destruct (remove_null responses) as [|v0 vs]; [destruct Hin|].
      intros [= <- _]. now eexists. }
  destruct (if isString request then string_data request else None)
    as [text|] eqn:Hs.
  - destruct (JSON_parse text) as [parsed|] eqn:Hparse.
    + destruct (Hr parsed) as (p & s' & evs & Hrun & Ht & Hp & Hone & Hmany).
      exists p, s', evs.
      split; [exact Hrun|]. split; [exact Ht|]. split; [exact Hp|]. split.
      * intros parsed' e Hd. rewrite (denotes_text _ _ _ _ Hs Hparse Hd).
        apply Hone.
      * intros before entry after e Hd.
        apply (Hmany before entry after e).
        symmetry. exact (denotes_text _ _ _ _ Hs Hparse Hd).
    + eexists _, _, []. rewrite app_nil_r.
      split; [reflexivity|]. split; [reflexivity|].
      split; [split; [right; left; apply (is_response_error VNull PARSE_ERROR
                                            (VString "Unable to parse JSON") VUndefined);
                      reflexivity
                     | intros Hex; inversion Hex]|].
      unfold denotes. rewrite Hs, Hparse. split; intros; discriminate.
  - destruct (Hr request) as (p & s' & evs & Hrun & Ht & Hp & Hone & Hmany).
    exists p, s', evs.
    split; [exact Hrun|]. split; [exact Ht|]. split; [exact Hp|]. split.
    + intros parsed e Hd. rewrite (denotes_value _ _ Hs Hd). apply Hone.
    + intros before entry after e Hd.
      apply (Hmany before entry after e).
      symmetry. exact (denotes_value _ _ Hs Hd).
Qed.

(** C2, at the request [{jsonrpc: "2.0", method: "m", id: true}].  The id is
    neither a number nor a string nor [null], yet [isNumeric(true)] holds
    ([Number(true)] is 1), so that [_validateRequest] returns [null] and the
    server answers with the id [true]. *)
Theorem boolean_id_passes_validation :
  let request :=
    VObject [("jsonrpc", VString "2.0"); ("method", VString "m");
             ("id", VBool true)] in
  isNumeric (VBool true) = Normal true /\
  _validateRequest request = Normal VNull /\
  forall requestContext s,
    handleJsonRpcRequest new_TinyJsonRpcServer request requestContext s =
    (Normal
       (Fulfilled
          (VObject [("jsonrpc", VString "2.0");
                    ("error",
                     VObject [("code", VNumber (num_of_Z (-32601)));
                              ("message", VString "Method 'm' not found")]);
                    ("id", VBool true)])), s).
Proof.
  cbv zeta. split; [reflexivity|]. split; [reflexivity|].
  intros requestContext s. rewrite handleJsonRpcRequest_run. cbn [isString route].
  rewrite _handleJsonRpcRequest_run. reflexivity.
Qed.

(** C3.  A valid request whose call completes with the value [v] is answered
    with [{jsonrpc: "2.0", result: v, id}] where [id] is the id of the
    request, whatever it is (0, the empty string and null included); without
    an id field the outcome is [null] and [v] is dropped.  The call completes
    with [v] when it returns [v], a promise fulfilled with [v], or a
    thenable that resolves to [v]. *)
Theorem successful_call_response (this : TinyJsonRpcServer)
  (request requestContext : value) (s : state) (v : value) (s' : state) :
  _validateRequest request = Normal VNull ->
  completes_with this request requestContext s v s' ->
  _handleJsonRpcRequest this request requestContext s =
  (Normal
     (Fulfilled
        (if has_prop request "id"
         then VObject [("jsonrpc", VString "2.0");
                       ("result", v);
                       ("id", prop request "id")]
         else VNull)), s').
Proof.
  intros Hv Hc. rewrite (successful_run _ _ _ _ _ _ Hv Hc).
  unfold resolved_id, createResultResponse.
  destruct (has_prop request "id"); reflexivity.
Qed.

(** C4, amended.  A valid request whose call fails is answered with an error
    response that carries the resolved id (the id of the request, [null] for
    a notification) and is never [null].  For a failure that is no
    [JsonRpcRequestException] the error is INTERNAL_ERROR with the message
    of the first [catch].  For a [JsonRpcRequestException] the error is
    rebuilt by [createErrorObject] from the [code], [message] and [data] of
    its error object; it is that error object itself when [createErrorObject]
    built it; and it is INTERNAL_ERROR with the message of the second
    [catch] when the exception has no error object or when the conversion of
    the code throws. *)
Theorem failed_call_response (this : TinyJsonRpcServer)
  (request requestContext : value) (s : state) (e : value) (s' : state) :
  _validateRequest request = Normal VNull ->
  fails_with this request requestContext s e s' ->
  exists error,
    _handleJsonRpcRequest this request requestContext s =
    (Normal
       (Fulfilled
          (VObject [("jsonrpc", VString "2.0");
                    ("error", error);
                    ("id", if has_prop request "id" then prop request "id"
                           else VNull)])), s') /\
    (instanceof_JsonRpcRequestException e = false ->
     error = VObject [("code", INTERNAL_ERROR);
                      ("message",
                       VString "An error occurred when handling request")]) /\
    (forall errorObj,
        e = VJsonRpcRequestException errorObj ->
        match errorObj with
        | VUndefined | VNull =>
            error = VObject [("code", INTERNAL_ERROR);
                             ("message",
                              VString "A critical error occurred when handling request")]
        | _ =>
            match createErrorObject (prop errorObj "code")
                    (prop errorObj "message") (prop errorObj "data") with
            | Normal built => error = built
            | Throw _ =>
                error = VObject [("code", INTERNAL_ERROR);
                                 ("message",
                                  VString "A critical error occurred when handling request")]
            end
        end) /\
    (forall code message data errorObj,
        createErrorObject code message data = Normal errorObj ->
        e = VJsonRpcRequestException errorObj ->
        error = errorObj).
Proof.
  intros Hv Hf.
  pose proof (resolved_id_defined request Hv) as Hid.
  rewrite (failed_run _ _ _ _ _ _ Hv Hf), error_outcome_eq, (defined_id _ Hid).
  exists (error_member e). split; [reflexivity|].
  unfold error_member. split; [now intros ->|]. split.
  - intros errorObj ->.
    cbn [instanceof_JsonRpcRequestException prop lookup_prop
         String.eqb Ascii.eqb Bool.eqb].
    destruct errorObj; try reflexivity;
      match goal with
      | |- context [createErrorObject ?c ?m ?d] =>
          destruct (createErrorObject c m d); reflexivity
      end.
  - intros code message data errorObj Hbuilt ->.
    cbn [instanceof_JsonRpcRequestException prop lookup_prop
         String.eqb Ascii.eqb Bool.eqb].
    pose proof (createErrorObject_idempotent _ _ _ _ Hbuilt) as Hi.
    rewrite createErrorObject_shape in Hbuilt. unfold cbind in Hbuilt.
    destruct (isNumeric code); [|discriminate Hbuilt].
    injection Hbuilt as <-.
    match goal with
    | |- match ?o with _ => _ end = _ => change o with o
    end.
    cbv beta iota. now rewrite Hi.
Qed.

(** C5.  A batch of N requests, M of them notifications, all of which
    succeed, resolves to an array of exactly N - M responses, and to [null]
    when M = N.  The responses are the result responses to the requests
    that have an id, each with the value that its call completed with, in
    the order of the requests, and the batch leaves the state that the last
    call leaves. *)
Theorem batch_response_count (this : TinyJsonRpcServer)
  (requests : list value) (requestContext : value) (s : state)
  (vs : list value) (s' : state) :
  requests <> [] ->
  all_succeed this requests (default_context requestContext) s vs s' ->
  let N := List.length requests in
  let M := List.length (List.filter is_notification requests) in
  exists v,
    _handleJsonRpcBatchRequest this requests requestContext s =
    (Normal (Fulfilled v), s') /\
    (M = N -> v = VNull) /\
    (M <> N ->
     v = VArray (result_responses requests vs) /\
     List.length (result_responses requests vs) = N - M).
Proof.
  intros _ Hall N M. rewrite _handleJsonRpcBatchRequest_run.
  destruct (all_succeed_run _ _ _ _ _ _ Hall) as (-> & Hlen).
  cbn [fst snd].
  rewrite (proj2 (fulfilled_values_map _ _) eq_refl), result_responses_remove_null.
  pose proof (result_responses_length _ _ Hlen) as Hcount. fold M N in Hcount.
  eexists. split; [reflexivity|].
  destruct (Nat.eqb_spec (List.length (result_responses requests vs)) 0) as [E|E].
  - split; [reflexivity|]. intros HM. lia.
  - split; [intros HM; lia|]. intros _. split; [reflexivity | lia].
Qed.

(** C6.  An empty array, given as such or as the result of parsing a string,
    is answered with the single INVALID_REQUEST response
    [Invalid request, missing request object(s)] and id [null], in the state
    the server started from: no handler has been called.  The answer is not
    the one of the batch handler, which resolves to [null] on an empty list. *)
Theorem empty_batch_response (this : TinyJsonRpcServer) (requestContext : value)
  (s : state) :
  let response :=
    VObject [("jsonrpc", VString "2.0");
             ("error",
              VObject [("code", VNumber (num_of_Z (-32600)));
                       ("message",
                        VString "Invalid request, missing request object(s)")]);
             ("id", VNull)] in
  handleJsonRpcRequest this (VArray []) requestContext s
  = (Normal (Fulfilled response), s) /\
  (forall request text,
      string_data request = Some text ->
      JSON_parse text = Some (VArray []) ->
      handleJsonRpcRequest this request requestContext s
      = (Normal (Fulfilled response), s)) /\
  _handleJsonRpcBatchRequest this [] requestContext s
  = (Normal (Fulfilled VNull), s).
Proof.
  cbv zeta. repeat split.
  - intros request text Hd Hp. rewrite handleJsonRpcRequest_run.
    assert (isString request = true) as -> by (destruct request; now try discriminate Hd).
    now rewrite Hd, Hp.
Qed.


(** C8, at [new JsonRpcRequestException(NaN, "bad")].  The first argument is
    no object, so the stored error object should be
    [createErrorObject(NaN, "bad")], that is [{code: -32603, message: "bad"}],
    and the constructor of the JavaScript build stores just that; the
    TypeScript constructor tests [isNumeric] instead and stores [NaN] itself,
    and the response to a handler that throws the exception loses the
    message. *)
Theorem exception_from_NaN :
  let e := VJsonRpcRequestException (VNumber S754_nan) in
  is_object (VNumber S754_nan) = false /\
  JsonRpcRequestException (VNumber S754_nan) (VString "bad") VUndefined = Normal e /\
  createErrorObject (VNumber S754_nan) (VString "bad") VUndefined =
  Normal (VObject [("code", VNumber (num_of_Z (-32603))); ("message", VString "bad")]) /\
  JsonRpcRequestException_js (VNumber S754_nan) (VString "bad") VUndefined =
  Normal
    (VJsonRpcRequestException
       (VObject [("code", VNumber (num_of_Z (-32603))); ("message", VString "bad")])) /\
  error_outcome (VNumber (num_of_Z 1)) e =
  VObject [("jsonrpc", VString "2.0");
           ("error", VObject [("code", VNumber (num_of_Z (-32603)));
                              ("message", VString "Unspecified error")]);
           ("id", VNumber (num_of_Z 1))].
Proof. cbv zeta. repeat split. Qed.

(** C9, at the request [{jsonrpc: "2.0", method: "toString", id: 1}] sent to a
    server with no registered method and a callback.  The method table does
    not contain [toString], yet [this._methods["toString"]] is the function
    every object inherits: the server calls it, answers with its result and
    never consults the callback. *)
Theorem inherited_member_preempts_callback (methodCallback : MethodCallback)
  (requestContext : value) (s : state) :
  let this := registerMethodCallback new_TinyJsonRpcServer methodCallback in
  let request :=
    VObject [("jsonrpc", VString "2.0"); ("method", VString "toString");
             ("id", VNumber (num_of_Z 1))] in
  _methods this !! "toString" = None /\
  handleJsonRpcRequest this request requestContext s =
  (Normal
     (Fulfilled
        (VObject [("jsonrpc", VString "2.0");
                  ("result", VString "[object Undefined]");
                  ("id", VNumber (num_of_Z 1))])),
   {| world := world s;
      trace := trace s ++ [Called_inherited "toString" VUndefined
                             (default_context requestContext)
                             (Normal (VString "[object Undefined]"))] |}).
Proof.
  cbv zeta. split; [reflexivity|].
  rewrite handleJsonRpcRequest_run. cbn [isString route].
  rewrite _handleJsonRpcRequest_run. reflexivity.
Qed.


(** ** Further properties

    The acceptance side of the validator, the lookup of a method for the
    names that no object inherits, the second [catch] of the executor, the
    parse step of the entry point, the registration methods, the helper
    responses and the agreement of the two builds of the constructor. *)

(** *** Auxiliary facts *)

Lemma createErrorObject_well_formed (code message data errorObj : value) :
  createErrorObject code message data = Normal errorObj ->
  well_formed_error errorObj.
Proof.
  rewrite createErrorObject_shape. unfold cbind.
  destruct (isNumeric code) as [numeric|e] eqn:Hn; [|discriminate].
  intros [= <-].
  exists (if numeric then code else INTERNAL_ERROR),
         (if truthy message then message else VString "Unspecified error").
  split; [destruct numeric; [exact Hn | reflexivity]|].
  split; [destruct (truthy message) eqn:E; [exact E | reflexivity]|].
  destruct (truthy data) eqn:Hd; [right; now exists data | now left].
Qed.

Lemma createErrorResponse_well_formed (id code message data response : value) :
  id = VUndefined \/ accepted_id id = Normal true ->
  createErrorResponse id code message data = Normal response ->
  well_formed_response response.
Proof.
  intros Hid. unfold createErrorResponse, cbind.
  destruct (createErrorObject code message data) as [error|e] eqn:He;
    [|discriminate].
  intros [= <-].
  exists (match id with VUndefined => VNull | _ => id end). split.
  - destruct Hid as [-> | Hid]; [reflexivity|]. now destruct id.
  - right. exists error. split; [|reflexivity].
    now apply createErrorObject_well_formed in He.
Qed.

Lemma internal_error_response_well_formed (id : value) (message : string) :
  accepted_id id = Normal true -> message <> EmptyString ->
  well_formed_response (internal_error_response id message).
Proof.
  intros Hid Hm.
  apply (createErrorResponse_well_formed id INTERNAL_ERROR (VString message)
           VUndefined); [now right|].
  now apply internal_error_response_eq.
Qed.

Lemma error_outcome_well_formed (id e : value) :
  accepted_id id = Normal true -> well_formed_response (error_outcome id e).
Proof.
  intros Hid. unfold error_outcome.
  destruct (instanceof_JsonRpcRequestException e);
    [|now apply internal_error_response_well_formed].
  destruct (prop e "errorObj");
    try (now apply internal_error_response_well_formed);
    match goal with
    | |- context [createErrorResponse ?i ?c ?m ?d] =>
        destruct (createErrorResponse i c m d) eqn:E;
          [apply createErrorResponse_well_formed in E; [exact E | now right]
          | now apply internal_error_response_well_formed]
    end.
Qed.

Lemma rejection_well_formed (request : value) :
  _validateRequest request <> Normal VNull ->
  well_formed_response (rejection request).
Proof.
  intros Hv. unfold rejection.
  destruct (_validateRequest_cases request)
    as [H | [(id & msg & H & Hid & Hm) | (e & H & _)]]; rewrite H.
  - now destruct Hv.
  - exists id. split; [exact Hid|]. right. eexists. split; [|reflexivity].
    exists INVALID_REQUEST, (VString msg).
    split; [reflexivity|]. split; [|now left].
    assert (Hin : In msg refusals) by (apply refusals_split; tauto).
    cbn in Hin. intuition (subst; reflexivity).
  - now apply error_outcome_well_formed.
Qed.

Lemma _handleJsonRpcRequest_well_formed (this : TinyJsonRpcServer)
  (request requestContext : value) (s : state) (v : value) (s' : state) :
  _handleJsonRpcRequest this request requestContext s = (Normal (Fulfilled v), s') ->
  v = VNull \/ well_formed_response v.
Proof.
  destruct (_validateRequest_cases request) as [Hv | Hrej].
  2: { assert (Hn : _validateRequest request <> Normal VNull)
         by (destruct Hrej as [(? & ? & H & _) | (? & H & _)];
             rewrite H; discriminate).
       rewrite (rejected_run _ _ _ _ Hn). intros [= <- _]. right.
       now apply rejection_well_formed. }
  rewrite _handleJsonRpcRequest_run, Hv. cbn [truthy].
  pose proof (valid_resolved_id_accepted request Hv) as Hid.
  destruct (invoke this request requestContext s) as [[[result|]|e] s1].
  - destruct (Promise_resolve result) as [v0|e|]; intros [= <- _].
    + destruct (has_prop request "id"); [right | now left].
      exists (resolved_id request). split; [exact Hid|]. left. now eexists.
    + right. now apply error_outcome_well_formed.
  - intros [= <- _]. right.
    apply (createErrorResponse_well_formed (resolved_id request)
             METHOD_NOT_FOUND (not_found_message request) VUndefined);
      [now right | apply not_found_response_eq].
  - intros [= <- _]. right. now apply error_outcome_well_formed.
Qed.

Lemma run_each_well_formed (this : TinyJsonRpcServer) (requests : list value)
  (requestContext : value) (s : state) (responses : list value) :
  fst (run_each this requests requestContext s) = map Fulfilled responses ->
  Forall (fun v => v = VNull \/ well_formed_response v) responses.
Proof.
  revert s responses. induction requests as [|request rest IH]; intros s responses.
  { destruct responses; [constructor | discriminate]. }
  cbn [run_each].
  destruct (_handleJsonRpcRequest this request requestContext s) as [c s1] eqn:Hrun.
  specialize (IH s1).
  destruct (run_each this rest requestContext s1) as [ps s2].
  cbn [fst] in *.
  destruct responses as [|v vs]; [discriminate|].
  cbn [map]. intros [= Hc Hps].
  constructor; [|now apply IH].
  destruct c as [p|e]; cbn [promise_of] in Hc; subst.
  - now apply (_handleJsonRpcRequest_well_formed _ _ _ _ _ _ Hrun).
  - destruct (_handleJsonRpcRequest_post this request requestContext s)
      as (p & s3 & evs & Hp & _). rewrite Hp in Hrun. discriminate Hrun.
Qed.

Lemma remove_null_well_formed (responses : list value) :
  Forall (fun v => v = VNull \/ well_formed_response v) responses ->
  Forall well_formed_response (remove_null responses).
Proof.
  induction 1 as [|v vs Hv _ IH]; [constructor|].
  unfold remove_null in *. cbn [List.filter].
  destruct v; cbn [is_null negb]; try exact IH;
    (constructor; [|exact IH]);
    (destruct Hv as [Hv|Hv]; [discriminate Hv | exact Hv]).
Qed.

Lemma rejection_not_null (request : value) :
  _validateRequest request <> Normal VNull -> rejection request <> VNull.
Proof.
  intros Hv. now apply is_response_not_null, rejection_is_response.
Qed.

Lemma remove_null_rejections (requests : list value) :
  Forall (fun request => _validateRequest request <> Normal VNull) requests ->
  remove_null (map rejection requests) = map rejection requests.
Proof.
  induction 1 as [|request rest Hr _ IH]; [reflexivity|].
  unfold remove_null in *. cbn [map List.filter]. rewrite IH.
  pose proof (rejection_not_null _ Hr) as Hn.
  destruct (rejection request); try reflexivity. now destruct Hn.
Qed.

Lemma run_each_rejections (this : TinyJsonRpcServer) (requests : list value)
  (requestContext : value) (s : state) :
  Forall (fun request => _validateRequest request <> Normal VNull) requests ->
  run_each this requests requestContext s =
  (map Fulfilled (map rejection requests), s).
Proof.
  induction 1 as [|request rest Hr _ IH]; [reflexivity|].
  cbn [run_each map]. rewrite (rejected_run _ _ _ _ Hr), IH. reflexivity.
Qed.

(** *** The validator *)

(** X1.  A request of the declared type is accepted: a plain object with a
    non-empty [jsonrpc] string and a non-empty [method] string, with no [id]
    or one that is a string, a finite number or [null], and with no [params]
    or ones that are an object, passes [_validateRequest]. *)
Theorem conforming_request_is_accepted (request : value) :
  conforming request = true -> _validateRequest request = Normal VNull.
Proof.
  destruct request as [| | | | |props| | | | | | | |]; try discriminate.
  unfold conforming. intros H.
  apply andb_prop in H as [H Hparams]. apply andb_prop in H as [H Hid].
  apply andb_prop in H as [Hversion Hmethod].
  apply _validateRequest_null.
  unfold has_prop, prop. cbn [lookup_prop is_object].
  split; [reflexivity|].
  split.
  { destruct (assoc "jsonrpc" props) as [[]|]; try discriminate. exact Hversion. }
  split.
  { destruct (assoc "id" props) as [[]|]; try discriminate; intros _.
    - reflexivity.
    - now rewrite (proj1 accepted_id_primitives), Hid.
    - apply accepted_id_primitives. }
  destruct (assoc "method" props) as [[| | | |method| | | | | | | | |]|];
    try discriminate.
  split; [reflexivity|].
  split; [now destruct method|].
  destruct (assoc "params" props) as [params|]; [|reflexivity].
  now destruct params.
Qed.

(** X2.  What an accepted request looks like: it is an object with a truthy
    [jsonrpc]; its [method] is a string, or a [String] object, and not the
    empty string; its [id], when it has one, passes the test of the id, so
    that the id the server answers with is never [undefined]; and its
    [params] are an object unless they are falsy. *)
Theorem accepted_request_shape (request : value) :
  _validateRequest request = Normal VNull ->
  is_object request = true /\
  truthy (prop request "jsonrpc") = true /\
  (exists key, string_data (prop request "method") = Some key) /\
  prop request "method" <> VString EmptyString /\
  (has_prop request "id" = true ->
   exists numeric,
     isNumeric (prop request "id") = Normal numeric /\
     numeric || isString (prop request "id") || is_null (prop request "id") = true) /\
  resolved_id request <> VUndefined /\
  (truthy (prop request "params") = true ->
   is_object (prop request "params") = true).
Proof.
  intros Hv. pose proof (validated_method_key request Hv) as Hkey.
  pose proof (resolved_id_defined request Hv) as Hid.
  apply _validateRequest_null in Hv as (Ho & Hj & Hi & Hs & He & Hp).
  repeat split; auto.
  - intros Hm. rewrite Hm in He. discriminate He.
  - intros Hh. specialize (Hi Hh). unfold accepted_id, cbind in Hi.
    destruct (isNumeric (prop request "id")) as [numeric|e]; [|discriminate Hi].
    exists numeric. split; [reflexivity|]. now injection Hi.
  - intros Ht. unfold accepted_params in Hp. rewrite Ht in Hp.
    destruct (prop request "params"); try reflexivity; discriminate.
Qed.

(** X3.  The validator accepts, refuses or throws.  Every refusal is a
    response with the error code INVALID_REQUEST, one of the five messages
    and no [data]: the three first refusals carry the id [null], whatever
    the request says; the two last ones carry the id of the request, [null]
    when it has none.  The validator throws only in the test of the id, what
    the conversion of the id to a number throws. *)
Theorem refusal_is_invalid_request (request : value) :
  _validateRequest request = Normal VNull \/
  (exists id message,
      _validateRequest request =
      Normal
        (VObject [("jsonrpc", VString "2.0");
                  ("error", VObject [("code", VNumber (num_of_Z (-32600)));
                                     ("message", VString message)]);
                  ("id", id)]) /\
      ((id = VNull /\
        In message ["Invalid request";
                    "Invalid request, missing jsonrpc version";
                    "Invalid request, invalid id"]) \/
       (id = resolved_id request /\
        In message ["Invalid request, missing method";
                    "Invalid request, invalid parameter type"]))) \/
  (exists e,
      _validateRequest request = Throw e /\
      is_object request = true /\
      has_prop request "id" = true /\
      ToNumber (prop request "id") = Throw e).
Proof.
  destruct (_validateRequest_cases request)
    as [Hv | [(id & message & Hv & Hid & Hm) | (e & Hv & Hh & Hn)]].
  - now left.
  - right; left. exists id, message. split; [exact Hv | exact Hm].
  - right; right. exists e. split; [exact Hv|].
    split.
    { rewrite _validateRequest_order in Hv.
      destruct (is_object request); [reflexivity | discriminate Hv]. }
    split; [exact Hh|].
    rewrite isNumeric_eq in Hn. unfold cbind in Hn.
    destruct (ToNumber (prop request "id")); [discriminate Hn | now injection Hn as ->].
Qed.

(** *** The executor *)

(** X4.  A request that the validator does not accept is answered in the
    state the executor started from: neither a handler nor the callback is
    called, whatever is registered, and a notification is answered too.
    The answer is the refusal when the validator refuses, and the response
    of the [catch] callbacks with the id [null] when the validator throws:
    INTERNAL_ERROR [An error occurred when handling request], unless what
    was thrown is a [JsonRpcRequestException]. *)
Theorem refused_request_is_not_dispatched (this : TinyJsonRpcServer)
  (request requestContext : value) (s : state) :
  _validateRequest request <> Normal VNull ->
  _handleJsonRpcRequest this request requestContext s =
  (Normal
     (Fulfilled
        (match _validateRequest request with
         | Normal refused => refused
         | Throw e =>
             if instanceof_JsonRpcRequestException e then error_outcome VNull e
             else
               VObject [("jsonrpc", VString "2.0");
                        ("error",
                         VObject [("code", VNumber (num_of_Z (-32603)));
                                  ("message",
                                   VString "An error occurred when handling request")]);
                        ("id", VNull)]
         end)), s).
Proof.
  intros Hv. rewrite (rejected_run _ _ _ _ Hv). unfold rejection.
  destruct (_validateRequest request) as [refused|e]; [reflexivity|].
  unfold error_outcome.
  now destruct (instanceof_JsonRpcRequestException e).
Qed.

(** X5.  A valid request for a name that is not registered, on a server
    without a callback, is answered with METHOD_NOT_FOUND, the message
    [Method '<name>' not found] and the id of the request ([null] for a
    notification, which is thus answered); nothing is called.  The name is
    one that no object inherits. *)
Theorem unknown_method_without_callback (this : TinyJsonRpcServer)
  (request requestContext : value) (s : state) (key : string) :
  _validateRequest request = Normal VNull ->
  string_data (prop request "method") = Some key ->
  ordinary key ->
  _methods this !! key = None ->
  _methodCallback this = None ->
  _handleJsonRpcRequest this request requestContext s =
  (Normal
     (Fulfilled
        (VObject [("jsonrpc", VString "2.0");
                  ("error",
                   VObject [("code", VNumber (num_of_Z (-32601)));
                            ("message", VString ("Method '" ++ key ++ "' not found"))]);
                  ("id", resolved_id request)])), s).
Proof.
  intros Hv Hk Ho Hm Hc.
  rewrite _handleJsonRpcRequest_run, Hv. cbn [truthy].
  rewrite (invoke_ordinary _ _ _ _ _ Hk Ho). unfold Method in *. rewrite Hm, Hc.
  unfold not_found_response, not_found_message.
  rewrite (defined_id _ (resolved_id_defined _ Hv)), Hk. reflexivity.
Qed.

(** X6.  When the callback returns [undefined] for such a name, the answer
    is the same METHOD_NOT_FOUND response; the callback has been called
    once, with the method, the params and the context. *)
Theorem callback_returning_undefined (this : TinyJsonRpcServer)
  (request requestContext : value) (s : state) (key : string)
  (methodCallback : MethodCallback) (w : World) :
  _validateRequest request = Normal VNull ->
  string_data (prop request "method") = Some key ->
  ordinary key ->
  _methods this !! key = None ->
  _methodCallback this = Some methodCallback ->
  methodCallback (prop request "method") (prop request "params") requestContext
    (world s) = (Normal VUndefined, w) ->
  _handleJsonRpcRequest this request requestContext s =
  (Normal
     (Fulfilled
        (VObject [("jsonrpc", VString "2.0");
                  ("error",
                   VObject [("code", VNumber (num_of_Z (-32601)));
                            ("message", VString ("Method '" ++ key ++ "' not found"))]);
                  ("id", resolved_id request)])),
   {| world := w;
      trace := trace s ++ [Called_callback (prop request "method")
                             (prop request "params") requestContext
                             (Normal VUndefined)] |}).
Proof.
  intros Hv Hk Ho Hm Hc Hcall.
  rewrite _handleJsonRpcRequest_run, Hv. cbn [truthy].
  rewrite (invoke_ordinary _ _ _ _ _ Hk Ho). unfold Method in *.
  rewrite Hm, Hc, Hcall.
  unfold not_found_response, not_found_message.
  rewrite (defined_id _ (resolved_id_defined _ Hv)), Hk. reflexivity.
Qed.

(** X7.  When the callback returns anything else, that value, awaited when
    it is a promise or a thenable, is the result: [null], [false] and a
    promise of [undefined] are results like any other.  The callback has
    been called once, with the method, the params and the context. *)
Theorem callback_result_is_served (this : TinyJsonRpcServer)
  (request requestContext : value) (s : state) (key : string)
  (methodCallback : MethodCallback) (result v : value) (w : World) :
  _validateRequest request = Normal VNull ->
  string_data (prop request "method") = Some key ->
  ordinary key ->
  _methods this !! key = None ->
  _methodCallback this = Some methodCallback ->
  methodCallback (prop request "method") (prop request "params") requestContext
    (world s) = (Normal result, w) ->
  result <> VUndefined ->
  Promise_resolve result = Fulfilled v ->
  _handleJsonRpcRequest this request requestContext s =
  (Normal
     (Fulfilled
        (if has_prop request "id"
         then VObject [("jsonrpc", VString "2.0");
                       ("result", v);
                       ("id", prop request "id")]
         else VNull)),
   {| world := w;
      trace := trace s ++ [Called_callback (prop request "method")
                             (prop request "params") requestContext
                             (Normal result)] |}).
Proof.
  intros Hv Hk Ho Hm Hc Hcall Hdef Hres.
  rewrite _handleJsonRpcRequest_run, Hv. cbn [truthy].
  rewrite (invoke_ordinary _ _ _ _ _ Hk Ho). unfold Method in *.
  rewrite Hm, Hc, Hcall.
  assert (Hsome : match result with
                  | VUndefined => @Normal (option value) None
                  | _ => Normal (Some result)
                  end = Normal (Some result))
    by (destruct result; try reflexivity; now destruct Hdef).
  rewrite Hsome, Hres. unfold resolved_id, createResultResponse.
  destruct (has_prop request "id"); reflexivity.
Qed.

(** X8.  A registered handler takes precedence under every name, also under
    one that objects inherit: it is called once, with the params of the
    request and the context, and the callback is not consulted.  The answer
    is made from what the handler returned, awaited when it is a promise or
    a thenable, or from what it threw: the result response, or [null] for a
    notification; the response that the [catch] callbacks make of a failure;
    and no answer as long as the result does not settle. *)
Theorem registered_handler_is_called (this : TinyJsonRpcServer)
  (request requestContext : value) (s : state) (key : string) (f : Method)
  (r : completion value) (w : World) :
  _validateRequest request = Normal VNull ->
  string_data (prop request "method") = Some key ->
  _methods this !! key = Some f ->
  f (prop request "params") requestContext (world s) = (r, w) ->
  _handleJsonRpcRequest this request requestContext s =
  (Normal
     (match r with
      | Normal result =>
          match Promise_resolve result with
          | Fulfilled v =>
              Fulfilled (if has_prop request "id"
                         then createResultResponse v (prop request "id")
                         else VNull)
          | Rejected e => Fulfilled (error_outcome (resolved_id request) e)
          | Pending => Pending
          end
      | Throw e => Fulfilled (error_outcome (resolved_id request) e)
      end),
   {| world := w;
      trace := trace s ++ [Called_method key (prop request "params")
                             requestContext r] |}).
Proof.
  intros Hv Hk Hm Hcall.
  rewrite _handleJsonRpcRequest_run, Hv. cbn [truthy].
  unfold invoke. rewrite Hk, (methods_get_registered _ _ _ Hm).
  unfold bind, call_method, ret. rewrite Hcall.
  destruct r as [result|e]; [|reflexivity].
  destruct (Promise_resolve result); try reflexivity.
  unfold resolved_id. now destruct (has_prop request "id").
Qed.

(** X9.  The second [catch]: when the call made for a valid request fails
    with an instance of [JsonRpcRequestException] whose [errorObj] is
    [undefined] or [null], reading its code throws inside the first [catch],
    and the request is answered with INTERNAL_ERROR and the message
    [A critical error occurred when handling request]. *)
Theorem exception_without_error_object (this : TinyJsonRpcServer)
  (request requestContext : value) (s : state) (errorObj : value) (s' : state) :
  _validateRequest request = Normal VNull ->
  fails_with this request requestContext s (VJsonRpcRequestException errorObj) s' ->
  errorObj = VUndefined \/ errorObj = VNull ->
  _handleJsonRpcRequest this request requestContext s =
  (Normal
     (Fulfilled
        (VObject [("jsonrpc", VString "2.0");
                  ("error",
                   VObject [("code", VNumber (num_of_Z (-32603)));
                            ("message",
                             VString "A critical error occurred when handling request")]);
                  ("id", resolved_id request)])), s').
Proof.
  intros Hv Hf He. rewrite (failed_run _ _ _ _ _ _ Hv Hf).
  pose proof (resolved_id_defined request Hv) as Hid.
  rewrite error_outcome_eq, (defined_id _ Hid).
  now destruct He as [-> | ->].
Qed.

(** X10.  The executor resolves to [null] only for a successful
    notification: the request was valid, had no [id], and the call made for
    it completed.  No refusal and no failure is dropped. *)
Theorem null_only_for_successful_notification (this : TinyJsonRpcServer)
  (request requestContext : value) (s s' : state) :
  _handleJsonRpcRequest this request requestContext s
  = (Normal (Fulfilled VNull), s') ->
  _validateRequest request = Normal VNull /\
  has_prop request "id" = false /\
  exists v, completes_with this request requestContext s v s'.
Proof.
  destruct (_validateRequest_cases request) as [Hv | Hrej].
  2: { assert (Hn : _validateRequest request <> Normal VNull)
         by (destruct Hrej as [(? & ? & H & _) | (? & H & _)];
             rewrite H; discriminate).
       rewrite (rejected_run _ _ _ _ Hn). intros [= Hnull _].
       now destruct (rejection_not_null _ Hn). }
  rewrite _handleJsonRpcRequest_run, Hv. cbn [truthy].
  destruct (invoke this request requestContext s) as [[[result|]|e] s1] eqn:Hi.
  - destruct (Promise_resolve result) as [v|e|] eqn:Hr; intros [= Hnull <-].
    + destruct (has_prop request "id"); [discriminate Hnull|].
      repeat split; auto. exists v, result. now split.
    + now destruct (is_response_not_null _ (error_outcome_is_response _ e) Hnull).
  - intros H. discriminate H.
  - intros [= Hnull _].
    now destruct (is_response_not_null _ (error_outcome_is_response _ e) Hnull).
Qed.

(** X11.  One request leads to at most one call of a handler, of an
    inherited member or of the callback, and a batch of N requests to at
    most N calls. *)
Theorem calls_are_bounded (this : TinyJsonRpcServer)
  (requests : list value) (request requestContext : value) (s : state) :
  (exists evs,
      trace (snd (_handleJsonRpcRequest this request requestContext s))
      = (trace s ++ evs)%list /\
      List.length evs <= 1) /\
  (exists evs,
      trace (snd (_handleJsonRpcBatchRequest this requests requestContext s))
      = (trace s ++ evs)%list /\
      List.length evs <= List.length requests).
Proof.
  split; [apply _handleJsonRpcRequest_calls|].
  rewrite _handleJsonRpcBatchRequest_run. cbn [snd].
  generalize (default_context requestContext) as ctx. intros ctx.
  revert s. induction requests as [|r rest IH]; intros s.
  { exists []. rewrite app_nil_r. split; [reflexivity | cbn; lia]. }
  cbn [run_each].
  destruct (_handleJsonRpcRequest_calls this r ctx s) as (evs & Ht & Hlen).
  destruct (_handleJsonRpcRequest this r ctx s) as [c s1].
  cbn [snd] in Ht.
  destruct (IH s1) as (evs' & Ht' & Hlen').
  destruct (run_each this rest ctx s1) as [ps s2]. cbn [snd] in *.
  exists (evs ++ evs')%list. split.
  - now rewrite Ht', Ht, app_assoc.
  - rewrite length_app. cbn [List.length]. lia.
Qed.

(** *** Responses *)

(** X12.  Whatever the entry point resolves to is [null], a well-formed
    response or a non-empty array of well-formed responses: each response
    has the version [2.0], an id that is never [undefined], and either a
    [result] or an [error] whose code is numeric and whose message is
    truthy. *)
Theorem responses_are_well_formed (this : TinyJsonRpcServer)
  (request requestContext : value) (s : state) (v : value) (s' : state) :
  handleJsonRpcRequest this request requestContext s = (Normal (Fulfilled v), s') ->
  v = VNull \/ well_formed_response v \/
  exists l, v = VArray l /\ l <> [] /\ Forall well_formed_response l.
Proof.
  rewrite handleJsonRpcRequest_run.
  assert (Hroute : forall r,
    route this r requestContext s = (Normal (Fulfilled v), s') ->
    v = VNull \/ well_formed_response v \/
    exists l, v = VArray l /\ l <> [] /\ Forall well_formed_response l).
  { intros r.
    assert (Hsingle :
      _handleJsonRpcRequest this r (default_context requestContext) s
      = (Normal (Fulfilled v), s') ->
      v = VNull \/ well_formed_response v \/
      exists l, v = VArray l /\ l <> [] /\ Forall well_formed_response l).
    { intros Hrun.
      destruct (_handleJsonRpcRequest_well_formed _ _ _ _ _ _ Hrun); auto. }
    destruct r as [| | | | | |requests| | | | | | |]; try exact Hsingle.
    destruct requests as [|r0 rest].
    { intros [= <- _]. right; left.
      apply (createErrorResponse_well_formed VNull INVALID_REQUEST
               (VString "Invalid request, missing request object(s)") VUndefined);
        [now right | reflexivity]. }
    unfold route. rewrite _handleJsonRpcBatchRequest_run, default_context_idempotent.
    pose proof (run_each_well_formed this (r0 :: rest)
                  (default_context requestContext) s) as Hwf.
    destruct (run_each this (r0 :: rest) (default_context requestContext) s)
      as [ps s2].
    cbn [fst snd] in *.
    destruct (fulfilled_values ps) as [responses|] eqn:Hf; [|discriminate].
    apply fulfilled_values_map in Hf.
    apply Hwf, remove_null_well_formed in Hf.
    destruct (remove_null responses) as [|v0 vs]; intros [= <- _]; [now left|].
    right; right. exists (v0 :: vs). now repeat split. }
  destruct (if isString request then string_data request else None) as [text|].
  - destruct (JSON_parse text) as [parsed|]; [apply Hroute|].
    intros [= <- _]. right; left.
    apply (createErrorResponse_well_formed VNull PARSE_ERROR
             (VString "Unable to parse JSON") VUndefined);
      [now right | reflexivity].
  - apply Hroute.
Qed.

(** X13.  [createParseErrorResponse]: the response has the code PARSE_ERROR
    and the id [null]; the default message stands in only for [undefined],
    any other falsy message becomes [Unspecified error]; and the [data] is
    carried when it is truthy. *)
Theorem createParseErrorResponse_fields (message data : value) :
  createParseErrorResponse message data =
  Normal
    (VObject [("jsonrpc", VString "2.0");
              ("error",
               VObject (("code", VNumber (num_of_Z (-32700)))
                        :: ("message",
                            match message with
                            | VUndefined => VString "Unable to parse JSON"
                            | _ => if truthy message then message
                                   else VString "Unspecified error"
                            end)
                        :: (if truthy data then [("data", data)] else [])));
              ("id", VNull)]).
Proof.
  unfold createParseErrorResponse.
  rewrite createErrorResponse_shape. now destruct message.
Qed.

(** X14.  [isNumeric] holds exactly when the conversion of its argument to a
    number completes with a finite number (the test for NaN adds nothing),
    and throws what the conversion throws.  It rejects [undefined],
    functions and the plain objects that have neither a [valueOf] nor a
    [toString] of their own; it throws a TypeError on a plain object whose
    own [toString] cannot be called, unless a [valueOf] of its own can; it
    accepts a number when it is finite and a string when it reads as a
    finite number; it accepts [null] and the booleans; and it accepts an
    error without a name whose message reads as a finite number. *)
Theorem isNumeric_is_finite_conversion :
  (forall v, isNumeric v = let? n := ToNumber v in Normal (is_finite n)) /\
  isNumeric VUndefined = Normal false /\
  (forall props,
      own_member props "valueOf" = Absent ->
      own_member props "toString" = Absent ->
      isNumeric (VObject props) = Normal false) /\
  (forall props,
      own_member props "toString" = NotCallable ->
      (forall f, own_member props "valueOf" <> Callable f) ->
      isNumeric (VObject props) = Throw TypeError) /\
  (forall name, isNumeric (VFunction name) = Normal false) /\
  (forall n, isNumeric (VNumber n) = Normal (is_finite n)) /\
  (forall text, isNumeric (VString text) = Normal (is_finite (StringToNumber text))) /\
  isNumeric VNull = Normal true /\
  (forall b, isNumeric (VBool b) = Normal true) /\
  (forall message,
      isNumeric (VError EmptyString message)
      = Normal (is_finite (StringToNumber message))).
Proof.
  split; [exact isNumeric_eq|].
  split; [reflexivity|].
  split; [exact isNumeric_plain_object|].
  split.
  { intros props Ht Hv. rewrite isNumeric_eq. unfold ToNumber. cbn [to_number].
    rewrite Ht.
    destruct (own_member props "valueOf") as [f| |];
      [now destruct (Hv f) | reflexivity | reflexivity]. }
  split; [reflexivity|].
  split; [exact isNumeric_number|].
  split; [intros text; now rewrite isNumeric_primitive|].
  split; [reflexivity|].
  split; [intros b; now destruct b|].
  intros message. now rewrite isNumeric_eq.
Qed.

(** *** The entry point *)

(** X15.  A string that [JSON.parse] rejects is answered with the
    PARSE_ERROR response [Unable to parse JSON] and the id [null], in the
    state the server started from. *)
Theorem unparseable_text_response (this : TinyJsonRpcServer)
  (request requestContext : value) (s : state) (text : string) :
  string_data request = Some text ->
  JSON_parse text = None ->
  handleJsonRpcRequest this request requestContext s =
  (Normal
     (Fulfilled
        (VObject [("jsonrpc", VString "2.0");
                  ("error", VObject [("code", VNumber (num_of_Z (-32700)));
                                     ("message", VString "Unable to parse JSON")]);
                  ("id", VNull)])), s).
Proof.
  intros Hd Hp. rewrite handleJsonRpcRequest_run.
  assert (isString request = true) as ->
    by (destruct request; now try discriminate Hd).
  now rewrite Hd, Hp.
Qed.

(** X16.  A request given as text is handled as the value it parses to is,
    when that value is not itself a string: parsing before the call or
    leaving it to the server gives the same promise and the same state. *)
Theorem text_is_handled_as_its_value (this : TinyJsonRpcServer)
  (request requestContext : value) (s : state) (text : string) (parsed : value) :
  string_data request = Some text ->
  JSON_parse text = Some parsed ->
  isString parsed = false ->
  handleJsonRpcRequest this request requestContext s =
  handleJsonRpcRequest this parsed requestContext s.
Proof.
  intros Hd Hp Hs. rewrite !handleJsonRpcRequest_run.
  assert (isString request = true) as ->
    by (destruct request; now try discriminate Hd).
  now rewrite Hd, Hp, Hs.
Qed.

(** *** Batches *)

(** X17.  A batch of one request resolves to the array that holds the answer
    to that request alone, and to [null] when that answer is [null]; the
    state is the one the single request leaves. *)
Theorem batch_of_one (this : TinyJsonRpcServer)
  (request requestContext : value) (s : state) (v : value) (s' : state) :
  _handleJsonRpcRequest this request (default_context requestContext) s
  = (Normal (Fulfilled v), s') ->
  _handleJsonRpcBatchRequest this [request] requestContext s =
  (Normal (Fulfilled (if is_null v then VNull else VArray [v])), s').
Proof.
  intros Hrun. rewrite _handleJsonRpcBatchRequest_run.
  cbn [run_each]. rewrite Hrun.
  cbn [fst snd promise_of fulfilled_values]. unfold remove_null.
  cbn [List.filter]. now destruct (is_null v).
Qed.

(** X18.  A batch none of whose entries the validator accepts resolves to
    the array of the answers to the entries, one for each entry and in the
    order of the entries, and nothing is called.  The answer to an entry is
    the refusal of the validator, or the response of the [catch] callbacks
    with the id [null] when the validator throws. *)
Theorem batch_of_refused_requests (this : TinyJsonRpcServer)
  (requests : list value) (requestContext : value) (s : state) :
  requests <> [] ->
  Forall (fun request => _validateRequest request <> Normal VNull) requests ->
  _handleJsonRpcBatchRequest this requests requestContext s =
  (Normal
     (Fulfilled
        (VArray
           (map (fun request =>
                   match _validateRequest request with
                   | Normal refused => refused
                   | Throw e => error_outcome VNull e
                   end) requests))), s).
Proof.
  intros Hne Hall. rewrite _handleJsonRpcBatchRequest_run.
  rewrite (run_each_rejections _ _ _ _ Hall). cbn [fst snd].
  rewrite (proj2 (fulfilled_values_map _ _) eq_refl).
  rewrite (remove_null_rejections _ Hall), length_map.
  destruct requests; [now destruct Hne | reflexivity].
Qed.

(** *** Registration *)

(** X20.  [registerMethods] merges: under each name the server then has the
    handler of the given object when it has one, and the handler it had
    before otherwise; the callback is left as it was. *)
Theorem registerMethods_merges (this : TinyJsonRpcServer)
  (methodObj : gmap string Method) (key : string) :
  getRegisteredMethods (registerMethods this methodObj) !! key =
  match methodObj !! key with
  | Some f => Some f
  | None => getRegisteredMethods this !! key
  end /\
  getMethodCallback (registerMethods this methodObj) = getMethodCallback this.
Proof.
  split; [|reflexivity].
  unfold getRegisteredMethods, registerMethods. cbn [_methods].
  rewrite lookup_union.
  destruct (methodObj !! key), (_methods this !! key); reflexivity.
Qed.

(** X21.  Registrations compose: two calls of [registerMethods] amount to
    one call with the second object spread over the first, a later callback
    replaces an earlier one, and handlers and callback can be registered in
    either order. *)
Theorem registrations_compose (this : TinyJsonRpcServer)
  (first second : gmap string Method) (callback callback' : MethodCallback) :
  registerMethods (registerMethods this first) second
  = registerMethods this (second ∪ first) /\
  registerMethodCallback (registerMethodCallback this callback) callback'
  = registerMethodCallback this callback' /\
  registerMethods (registerMethodCallback this callback) first
  = registerMethodCallback (registerMethods this first) callback.
Proof.
  unfold registerMethods, registerMethodCallback. cbn [_methods _methodCallback].
  split; [|split; reflexivity].
  f_equal. apply (assoc_L (∪)).
Qed.

(** X22.  Registration takes effect: after [registerMethods(methodObj)], a
    valid request for a name of [methodObj] is answered as a fresh server
    that knows this one handler answers it.  What was registered before,
    under this name or another, and the callback play no part. *)
Theorem registered_method_answers (this : TinyJsonRpcServer)
  (methodObj : gmap string Method) (request requestContext : value)
  (s : state) (key : string) (f : Method) :
  _validateRequest request = Normal VNull ->
  string_data (prop request "method") = Some key ->
  methodObj !! key = Some f ->
  _handleJsonRpcRequest (registerMethods this methodObj) request requestContext s =
  _handleJsonRpcRequest (registerMethods new_TinyJsonRpcServer {[ key := f ]})
    request requestContext s.
Proof.
  intros Hv Hk Hm.
  rewrite !_handleJsonRpcRequest_run, Hv. cbn [truthy].
  unfold invoke. rewrite Hk.
  rewrite (methods_get_registered (registerMethods this methodObj) key f)
    by now rewrite registerMethods_lookup, Hm.
  rewrite (methods_get_registered
             (registerMethods new_TinyJsonRpcServer {[ key := f ]}) key f)
    by now rewrite registerMethods_lookup, lookup_singleton_eq.
  reflexivity.
Qed.

(** *** The two builds of the constructor *)


End Properties.

(** ** Closed instances

    The counterexamples and the instances of the theorems, on the sample
    host. *)

#[local] Existing Instance Sample.host.

(** C1, as stated, fails when a handler returns a promise that never settles:
    the promise of the entry point then never resolves. *)
Lemma pending_handler_never_resolves :
  Sample.handle (Sample.call "hang" Sample.one) VUndefined Sample.start =
  (Normal Pending,
   Sample.after 1
     [Called_method "hang" VUndefined (VObject []) (Normal (VPromise Pending))]).
Proof. vm_compute. reflexivity. Qed.

(** C4, as stated, fails for an exception built from a ready error object
    whose [data] is falsy: the error of the response has no [data]. *)
Lemma falsy_data_not_carried :
  JsonRpcRequestException Sample.retry_error VUndefined VUndefined
  = Normal (VJsonRpcRequestException Sample.retry_error) /\
  prop Sample.retry_error "data" = Sample.zero /\
  Sample.handle (Sample.call "retry" Sample.one) VUndefined Sample.start =
  (Normal
     (Fulfilled
        (VObject [("jsonrpc", VString "2.0");
                  ("error", VObject [("code", Sample.one);
                                     ("message", VString "retry")]);
                  ("id", Sample.one)])),
   Sample.after 1
     [Called_method "retry" VUndefined (VObject [])
        (Throw (VJsonRpcRequestException Sample.retry_error))]).
Proof. repeat split; vm_compute; reflexivity. Qed.


(** C3 on a call with the id 0. *)
Lemma successful_call_response_witness :
  Sample.execute (Sample.call "getHelloString" Sample.zero) (VObject [])
    Sample.start =
  (Normal
     (Fulfilled
        (VObject [("jsonrpc", VString "2.0");
                  ("result", VString "Hello World!");
                  ("id", Sample.zero)])),
   Sample.after 1
     [Called_method "getHelloString" VUndefined (VObject [])
        (Normal (VString "Hello World!"))]).
Proof.
  apply (successful_call_response Sample.server
           (Sample.call "getHelloString" Sample.zero)).
  - reflexivity.
  - exists (VString "Hello World!"). split; reflexivity.
Defined.

(** C4 on a notification of [alwaysException]. *)
Lemma failed_call_response_witness :
  exists error,
    Sample.execute (Sample.notify "alwaysException") (VObject []) Sample.start =
    (Normal
       (Fulfilled
          (VObject [("jsonrpc", VString "2.0"); ("error", error); ("id", VNull)])),
     Sample.after 1
       [Called_method "alwaysException" VUndefined (VObject [])
          (Throw (VError "Error" "Forced exception"))]) /\
    error = VObject [("code", VNumber (num_of_Z (-32603)));
                     ("message", VString "An error occurred when handling request")].
Proof.
  destruct (failed_call_response Sample.server (Sample.notify "alwaysException")
              (VObject []) Sample.start (VError "Error" "Forced exception")
              (Sample.after 1
                 [Called_method "alwaysException" VUndefined (VObject [])
                    (Throw (VError "Error" "Forced exception"))])
              eq_refl (or_introl eq_refl))
    as (error & Hrun & Hinternal & _).
  exists error. split; [exact Hrun | exact (Hinternal eq_refl)].
Defined.

(** C5 on a batch of one notification and one call: N = 2, M = 1. *)
Lemma batch_response_count_witness :
  exists v,
    Sample.batch [Sample.notify "getHelloString";
                  Sample.call "getHelloString" (VString "call2")]
      VUndefined Sample.start =
    (Normal (Fulfilled v),
     Sample.after 2
       [Called_method "getHelloString" VUndefined (VObject [])
          (Normal (VString "Hello World!"));
        Called_method "getHelloString" VUndefined (VObject [])
          (Normal (VString "Hello World!"))]) /\
    (1 = 2 -> v = VNull) /\
    (1 <> 2 ->
     v = VArray [Sample.result_response (VString "Hello World!") (VString "call2")] /\
     1 = 2 - 1).
Proof.
  apply (batch_response_count Sample.server
           [Sample.notify "getHelloString";
            Sample.call "getHelloString" (VString "call2")]
           VUndefined Sample.start
           [VString "Hello World!"; VString "Hello World!"]).
  - discriminate.
  - split; [reflexivity|].
    exists (Sample.after 1
              [Called_method "getHelloString" VUndefined (VObject [])
                 (Normal (VString "Hello World!"))]).
    split; [exists (VString "Hello World!"); split; reflexivity|].
    split; [reflexivity|].
    eexists. split; [exists (VString "Hello World!"); split; reflexivity|].
    reflexivity.
Defined.


(** *** The tests of the repository, on the model *)

Example test_call_without_parameters :
  Sample.answer Sample.server (Sample.call "getHelloString" Sample.one)
  = Normal (Fulfilled (Sample.result_response (VString "Hello World!") Sample.one)).
Proof. vm_compute. reflexivity. Qed.

Example test_id_empty_string :
  Sample.answer Sample.server (Sample.call "getHelloString" (VString EmptyString))
  = Normal (Fulfilled (Sample.result_response (VString "Hello World!")
                         (VString EmptyString))).
Proof. vm_compute. reflexivity. Qed.

Example test_id_undefined :
  Sample.answer Sample.server (Sample.call "getHelloString" VUndefined)
  = Normal (Fulfilled (Sample.error_response (-32600)
                         "Invalid request, invalid id" VNull)).
Proof. vm_compute. reflexivity. Qed.

Example test_id_null :
  Sample.answer Sample.server (Sample.call "getHelloString" VNull)
  = Normal (Fulfilled (Sample.result_response (VString "Hello World!") VNull)).
Proof. vm_compute. reflexivity. Qed.

Example test_notification :
  Sample.answer Sample.server (Sample.notify "getHelloString")
  = Normal (Fulfilled VNull).
Proof. vm_compute. reflexivity. Qed.

Example test_method_returning_promise :
  Sample.answer Sample.server (Sample.call "asyncHello" Sample.one)
  = Normal (Fulfilled (Sample.result_response (VString "Hello World!") Sample.one)).
Proof. vm_compute. reflexivity. Qed.

Example test_non_protocol_exception :
  Sample.answer Sample.server (Sample.call "alwaysException" Sample.one)
  = Normal (Fulfilled (Sample.error_response (-32603)
                         "An error occurred when handling request" Sample.one)).
Proof. vm_compute. reflexivity. Qed.

Example test_invalid_parameters :
  Sample.answer Sample.server (Sample.call "addNumbers" Sample.one)
  = Normal (Fulfilled (Sample.error_response (-32602)
                         "Invalid parameter 'a', not a number" Sample.one)).
Proof. vm_compute. reflexivity. Qed.

Example test_promise_with_invalid_parameters :
  Sample.answer Sample.server (Sample.call "asyncAddNumbers" Sample.one)
  = Normal (Fulfilled (Sample.error_response (-32602)
                         "Invalid parameter 'a', not a number" Sample.one)).
Proof. vm_compute. reflexivity. Qed.

Example test_invalid_json :
  Sample.answer Sample.server (VString "{ method: ")
  = Normal (Fulfilled (Sample.error_response (-32700) "Unable to parse JSON" VNull)).
Proof. vm_compute. reflexivity. Qed.

Example test_missing_jsonrpc_version :
  Sample.answer Sample.server
    (VObject [("method", VString "getHelloString"); ("id", VString "nojsonrpc")])
  = Normal (Fulfilled (Sample.error_response (-32600)
                         "Invalid request, missing jsonrpc version" VNull)).
Proof. vm_compute. reflexivity. Qed.

Example test_batch_with_one_notification :
  Sample.answer Sample.server
    (VArray [Sample.notify "getHelloString";
             Sample.call "asyncHello" (VString "call2")])
  = Normal (Fulfilled
              (VArray [Sample.result_response (VString "Hello World!")
                         (VString "call2")])).
Proof. vm_compute. reflexivity. Qed.

Example test_batch_with_all_notifications :
  Sample.answer Sample.server
    (VArray [Sample.notify "getHelloString"; Sample.notify "asyncHello"])
  = Normal (Fulfilled VNull).
Proof. vm_compute. reflexivity. Qed.

Example test_batch_one_missing_method :
  Sample.answer Sample.server
    (VArray [Sample.call "addNumbersDoesNotExist" (VString "call1");
             Sample.call "getHelloString" (VString "call2")])
  = Normal (Fulfilled
              (VArray [Sample.error_response (-32601)
                         "Method 'addNumbersDoesNotExist' not found"
                         (VString "call1");
                       Sample.result_response (VString "Hello World!")
                         (VString "call2")])).
Proof. vm_compute. reflexivity. Qed.

Example test_empty_batch :
  Sample.answer Sample.server (VArray [])
  = Normal (Fulfilled (Sample.error_response (-32600)
                         "Invalid request, missing request object(s)" VNull)).
Proof. vm_compute. reflexivity. Qed.

Example test_empty_batch_as_text :
  Sample.answer Sample.server (VString "[]")
  = Normal (Fulfilled (Sample.error_response (-32600)
                         "Invalid request, missing request object(s)" VNull)).
Proof. vm_compute. reflexivity. Qed.

Example test_three_invalid_batch_entries :
  Sample.answer Sample.server
    (VArray [Sample.one; VNumber (num_of_Z 2); VNumber (num_of_Z 3)])
  = Normal (Fulfilled
              (VArray [Sample.error_response (-32600) "Invalid request" VNull;
                       Sample.error_response (-32600) "Invalid request" VNull;
                       Sample.error_response (-32600) "Invalid request" VNull])).
Proof. vm_compute. reflexivity. Qed.

Example test_batch_notification_that_throws :
  Sample.answer Sample.server
    (VArray [Sample.notify "alwaysException";
             Sample.call "getHelloString" (VString "call2")])
  = Normal (Fulfilled
              (VArray [Sample.error_response (-32603)
                         "An error occurred when handling request" VNull;
                       Sample.result_response (VString "Hello World!")
                         (VString "call2")])).
Proof. vm_compute. reflexivity. Qed.

Example test_callback_known_method :
  Sample.answer Sample.callback_server (Sample.call "getHelloString" Sample.one)
  = Normal (Fulfilled (Sample.result_response (VString "Hello callback World!")
                         Sample.one)).
Proof. vm_compute. reflexivity. Qed.

Example test_callback_unknown_method :
  Sample.answer Sample.callback_server (Sample.call "getHelloString2" Sample.one)
  = Normal (Fulfilled (Sample.error_response (-32601)
                         "Method 'getHelloString2' not found" Sample.one)).
Proof. vm_compute. reflexivity. Qed.

(** *** Conversions that throw, and thenables, on the model *)

(** [isNumeric({toString: 1})] throws, [isNumeric({valueOf: 1})] is false,
    [isNumeric({valueOf: () => 5})] is true, and so is [isNumeric] of an
    error without a name whose message is a numeral. *)
Example test_isNumeric_of_objects :
  isNumeric Sample.unconvertible = Throw TypeError /\
  isNumeric (VArray [Sample.unconvertible]) = Throw TypeError /\
  isNumeric (VObject [("valueOf", Sample.one)]) = Normal false /\
  isNumeric (VObject [("valueOf", VFunction "five")]) = Normal true /\
  isNumeric (VError EmptyString "5") = Normal true /\
  isNumeric (VError "Error" "5") = Normal false.
Proof. repeat split. Qed.

(** A request whose id does not convert is answered by the first [catch],
    with the id [null], and its handler is not called. *)
Example test_id_that_does_not_convert :
  Sample.handle (Sample.call "getHelloString" Sample.unconvertible) VUndefined
    Sample.start
  = (Normal (Fulfilled (Sample.error_response (-32603)
                          "An error occurred when handling request" VNull)),
     Sample.start).
Proof. vm_compute. reflexivity. Qed.

(** An exception whose code does not convert is answered by the second
    [catch]. *)
Example test_code_that_does_not_convert :
  Sample.answer Sample.extended_server (Sample.call "oddCode" Sample.one)
  = Normal (Fulfilled (Sample.error_response (-32603)
                         "A critical error occurred when handling request"
                         Sample.one)).
Proof. vm_compute. reflexivity. Qed.

(** A handler that returns a thenable is answered with what the thenable
    resolves to, and is not answered when the thenable never settles. *)
Example test_method_returning_thenable :
  Sample.answer Sample.extended_server (Sample.call "later" Sample.one)
  = Normal (Fulfilled (Sample.result_response (VString "Hello World!") Sample.one)) /\
  Sample.answer Sample.extended_server (Sample.call "never" Sample.one)
  = Normal Pending.
Proof. split; vm_compute; reflexivity. Qed.

(** On [{toString: 1}] the constructor of the source throws and the one of
    the JavaScript build stores the object. *)
Example test_constructors_on_object_that_does_not_convert :
  JsonRpcRequestException Sample.unconvertible VUndefined VUndefined
  = Throw TypeError /\
  JsonRpcRequestException_js Sample.unconvertible VUndefined VUndefined
  = Normal (VJsonRpcRequestException Sample.unconvertible).
Proof. split; reflexivity. Qed.

(** *** Instances of the further properties *)

(** X1 on the first request of the tests. *)
Lemma conforming_request_is_accepted_witness :
  _validateRequest (Sample.call "getHelloString" Sample.one) = Normal VNull.
Proof.
  apply (conforming_request_is_accepted (Sample.call "getHelloString" Sample.one)).
  reflexivity.
Defined.

(** X2 on a call with the id 0. *)
Lemma accepted_request_shape_witness :
  let request := Sample.call "getHelloString" Sample.zero in
  is_object request = true /\
  truthy (prop request "jsonrpc") = true /\
  (exists key, string_data (prop request "method") = Some key) /\
  prop request "method" <> VString EmptyString /\
  (has_prop request "id" = true ->
   exists numeric,
     isNumeric (prop request "id") = Normal numeric /\
     numeric || isString (prop request "id") || is_null (prop request "id") = true) /\
  resolved_id request <> VUndefined /\
  (truthy (prop request "params") = true ->
   is_object (prop request "params") = true).
Proof.
  apply (accepted_request_shape (Sample.call "getHelloString" Sample.zero)).
  reflexivity.
Defined.

(** X4 on a call whose id does not convert, for a method that is registered:
    the validator throws, the first [catch] answers with the id [null], and
    the handler is not called. *)
Lemma refused_request_is_not_dispatched_witness :
  Sample.execute (Sample.call "getHelloString" Sample.unconvertible) (VObject [])
    Sample.start =
  (Normal
     (Fulfilled
        (Sample.error_response (-32603) "An error occurred when handling request"
           VNull)),
   Sample.start).
Proof.
  apply (refused_request_is_not_dispatched Sample.server
           (Sample.call "getHelloString" Sample.unconvertible)).
  intros H. vm_compute in H. discriminate H.
Defined.

(** X5 on a notification of a method that the server of the tests does not
    have: it is answered, with the id [null]. *)
Lemma unknown_method_without_callback_witness :
  Sample.execute (Sample.notify "getHelloString2") (VObject []) Sample.start =
  (Normal
     (Fulfilled
        (Sample.error_response (-32601) "Method 'getHelloString2' not found" VNull)),
   Sample.start).
Proof.
  apply (unknown_method_without_callback Sample.server
           (Sample.notify "getHelloString2") (VObject []) Sample.start
           "getHelloString2");
    vm_compute; reflexivity.
Defined.

(** X6 on the callback of the tests, which knows one method only. *)
Lemma callback_returning_undefined_witness :
  _handleJsonRpcRequest Sample.callback_server
    (Sample.call "getHelloString2" Sample.one) (VObject []) Sample.start =
  (Normal
     (Fulfilled
        (Sample.error_response (-32601) "Method 'getHelloString2' not found"
           Sample.one)),
   Sample.after 1
     [Called_callback (VString "getHelloString2") VUndefined (VObject [])
        (Normal VUndefined)]).
Proof.
  apply (callback_returning_undefined Sample.callback_server
           (Sample.call "getHelloString2" Sample.one) (VObject []) Sample.start
           "getHelloString2" Sample.methodCallback);
    vm_compute; reflexivity.
Defined.

(** X7 on a callback that returns a promise of [undefined]: the result of
    the response is [undefined], and the method counts as found. *)
Lemma callback_result_is_served_witness :
  _handleJsonRpcRequest Sample.deferred_server
    (Sample.call "anything" Sample.one) (VObject []) Sample.start =
  (Normal (Fulfilled (Sample.result_response VUndefined Sample.one)),
   Sample.after 1
     [Called_callback (VString "anything") VUndefined (VObject [])
        (Normal (VPromise (Fulfilled VUndefined)))]).
Proof.
  apply (callback_result_is_served Sample.deferred_server
           (Sample.call "anything" Sample.one) (VObject []) Sample.start
           "anything" Sample.deferred_undefined
           (VPromise (Fulfilled VUndefined)) VUndefined);
    try (vm_compute; reflexivity).
  discriminate.
Defined.

(** X8 on a handler registered under the name [toString]: it is the one
    that is called. *)
Lemma registered_handler_is_called_witness :
  _handleJsonRpcRequest Sample.extended_server
    (Sample.call "toString" Sample.one) (VObject []) Sample.start =
  (Normal (Fulfilled (Sample.result_response (VString "Hello World!") Sample.one)),
   Sample.after 1
     [Called_method "toString" VUndefined (VObject [])
        (Normal (VString "Hello World!"))]).
Proof.
  apply (registered_handler_is_called Sample.extended_server
           (Sample.call "toString" Sample.one) (VObject []) Sample.start
           "toString" Sample.getHelloString (Normal (VString "Hello World!")));
    vm_compute; reflexivity.
Defined.

(** X9 on a handler that throws [new JsonRpcRequestException(undefined)]. *)
Lemma exception_without_error_object_witness :
  _handleJsonRpcRequest Sample.extended_server
    (Sample.call "bare" Sample.one) (VObject []) Sample.start =
  (Normal
     (Fulfilled
        (Sample.error_response (-32603)
           "A critical error occurred when handling request" Sample.one)),
   Sample.after 1
     [Called_method "bare" VUndefined (VObject [])
        (Throw (VJsonRpcRequestException VUndefined))]).
Proof.
  apply (exception_without_error_object Sample.extended_server
           (Sample.call "bare" Sample.one) (VObject []) Sample.start VUndefined).
  - reflexivity.
  - left. vm_compute. reflexivity.
  - now left.
Defined.

(** X10 on the notification of the tests. *)
Lemma null_only_for_successful_notification_witness :
  _validateRequest (Sample.notify "getHelloString") = Normal VNull /\
  has_prop (Sample.notify "getHelloString") "id" = false /\
  exists v,
    completes_with Sample.server (Sample.notify "getHelloString") (VObject [])
      Sample.start v
      (Sample.after 1
         [Called_method "getHelloString" VUndefined (VObject [])
            (Normal (VString "Hello World!"))]).
Proof.
  apply (null_only_for_successful_notification Sample.server
           (Sample.notify "getHelloString") (VObject []) Sample.start).
  vm_compute. reflexivity.
Defined.

(** X12 on a call of [alwaysException]. *)
Lemma responses_are_well_formed_witness :
  let response :=
    Sample.error_response (-32603) "An error occurred when handling request"
      Sample.one in
  response = VNull \/ well_formed_response response \/
  exists l, response = VArray l /\ l <> [] /\ Forall well_formed_response l.
Proof.
  apply (responses_are_well_formed Sample.server
           (Sample.call "alwaysException" Sample.one) VUndefined Sample.start _
           (Sample.after 1
              [Called_method "alwaysException" VUndefined (VObject [])
                 (Throw (VError "Error" "Forced exception"))])).
  vm_compute. reflexivity.
Defined.

(** X15 on the invalid text of the tests. *)
Lemma unparseable_text_response_witness :
  Sample.handle (VString "{ method: ") VUndefined Sample.start =
  (Normal (Fulfilled (Sample.error_response (-32700) "Unable to parse JSON" VNull)),
   Sample.start).
Proof.
  apply (unparseable_text_response Sample.server (VString "{ method: ")
           VUndefined Sample.start "{ method: ");
    reflexivity.
Defined.

(** X16 on the text [null]. *)
Lemma text_is_handled_as_its_value_witness :
  Sample.handle (VString "null") VUndefined Sample.start =
  Sample.handle VNull VUndefined Sample.start.
Proof.
  apply (text_is_handled_as_its_value Sample.server (VString "null")
           VUndefined Sample.start "null" VNull);
    reflexivity.
Defined.

(** X17 on a batch of one call. *)
Lemma batch_of_one_witness :
  Sample.batch [Sample.call "getHelloString" (VString "call1")] VUndefined
    Sample.start =
  (Normal
     (Fulfilled
        (VArray [Sample.result_response (VString "Hello World!")
                   (VString "call1")])),
   Sample.after 1
     [Called_method "getHelloString" VUndefined (VObject [])
        (Normal (VString "Hello World!"))]).
Proof.
  apply (batch_of_one Sample.server
           (Sample.call "getHelloString" (VString "call1")) VUndefined
           Sample.start
           (Sample.result_response (VString "Hello World!") (VString "call1"))).
  vm_compute. reflexivity.
Defined.

(** X18 on a batch of a number, a request without a version and a request
    whose id does not convert. *)
Lemma batch_of_refused_requests_witness :
  Sample.batch [Sample.one;
                VObject [("method", VString "getHelloString")];
                Sample.call "getHelloString" Sample.unconvertible]
    VUndefined Sample.start =
  (Normal
     (Fulfilled
        (VArray [Sample.error_response (-32600) "Invalid request" VNull;
                 Sample.error_response (-32600)
                   "Invalid request, missing jsonrpc version" VNull;
                 Sample.error_response (-32603)
                   "An error occurred when handling request" VNull])),
   Sample.start).
Proof.
  apply (batch_of_refused_requests Sample.server
           [Sample.one;
            VObject [("method", VString "getHelloString")];
            Sample.call "getHelloString" Sample.unconvertible]
           VUndefined Sample.start).
  - discriminate.
  - repeat constructor; intros H; vm_compute in H; discriminate H.
Defined.

(** X22 on a handler registered over the one of the tests. *)
Lemma registered_method_answers_witness :
  _handleJsonRpcRequest
    (registerMethods Sample.server {[ "getHelloString" := Sample.alwaysException ]})
    (Sample.call "getHelloString" Sample.one) (VObject []) Sample.start =
  _handleJsonRpcRequest
    (registerMethods new_TinyJsonRpcServer
       {[ "getHelloString" := Sample.alwaysException ]})
    (Sample.call "getHelloString" Sample.one) (VObject []) Sample.start.
Proof.
  apply (registered_method_answers Sample.server
           {[ "getHelloString" := Sample.alwaysException ]}
           (Sample.call "getHelloString" Sample.one) (VObject []) Sample.start
           "getHelloString" Sample.alwaysException);
    vm_compute; reflexivity.
Defined.
